(** * HemoLink ML service: eligibility scoring and health-flag extraction

    Shallow embedding of [backend/ml-service]:
    - [eligibility_service.py] (model loading, feature builder, score and reasons),
    - [gemini_client.py] (the optional LLM calls),
    - [nlp_health.py] (keyword extraction of health flags),
    - [train_model.py] / [train_from_csv.py] (the rule-based label function),
    - [main.py] (the three POST handlers).

    Conventions.
    - Python [int] is [Z].  Python [float] is modelled by the rationals [Q]:
      values are exact, there is no NaN, no infinity and no overflow.
    - Python [str] is [string]; a character is a code point below 256
      (Latin-1), which is what [ascii] can hold.  The few literals of the
      source with a character outside that range (an en dash in four reason
      texts) are kept as written; no function inspects them.
    - Exceptions, the module globals ([_model], [_gemini_configured], ...),
      the files under [artifacts/] and the calls to third-party code
      (scikit-learn, NLTK, the hosted LLM) are threaded through a state and
      exception monad over a [World]; a raised exception keeps the state
      reached so far, as in Python. *)

From Stdlib Require Import ZArith QArith Qround NArith List String Ascii Bool Lia Lqa.
From Stdlib Require Import DecimalString.
Import ListNotations.

Local Open Scope string_scope.

(* ================================================================= *)
(** ** Python strings *)

Module PyStr.

(** [str.isspace] on one character, for code points below 256. *)
Definition isspace (c : ascii) : bool :=
  let n := N_of_ascii c in
  (((9 <=? n) && (n <=? 13)) || ((28 <=? n) && (n <=? 32))
   || (n =? 133) || (n =? 160))%N.

(** [str.lower] on one character, for code points below 256. *)
Definition lower_char (c : ascii) : ascii :=
  let n := N_of_ascii c in
  if (((65 <=? n) && (n <=? 90)) || ((192 <=? n) && (n <=? 214))
      || ((216 <=? n) && (n <=? 222)))%N
  then ascii_of_N (n + 32) else c.

(** [str.isalnum] on one character, for code points below 256. *)
Definition isalnum_char (c : ascii) : bool :=
  let n := N_of_ascii c in
  (((48 <=? n) && (n <=? 57)) || ((65 <=? n) && (n <=? 90))
   || ((97 <=? n) && (n <=? 122))
   || (n =? 170) || (n =? 178) || (n =? 179) || (n =? 181)
   || (n =? 185) || (n =? 186) || ((188 <=? n) && (n <=? 190))
   || ((192 <=? n) && (n <=? 214)) || ((216 <=? n) && (n <=? 246))
   || ((248 <=? n) && (n <=? 255)))%N.

Fixpoint lower (s : string) : string :=
  match s with
  | EmptyString => EmptyString
  | String c r => String (lower_char c) (lower r)
  end.

Fixpoint all_chars (p : ascii -> bool) (s : string) : bool :=
  match s with
  | EmptyString => true
  | String c r => p c && all_chars p r
  end.

(** [s.isalnum()]: false on the empty string. *)
Definition isalnum (s : string) : bool :=
  match s with
  | EmptyString => false
  | _ => all_chars isalnum_char s
  end.

(** Truth value of a string: [bool(s)]. *)
Definition truthy (s : string) : bool :=
  match s with EmptyString => false | _ => true end.

(** [re.sub(r"\s+", " ", s)]: every maximal run of whitespace becomes one
    space.  [in_run] tells that the previous character was whitespace. *)
Fixpoint collapse_ws (in_run : bool) (s : string) : string :=
  match s with
  | EmptyString => EmptyString
  | String c r =>
      if isspace c
      then (if in_run then collapse_ws true r
            else String " " (collapse_ws true r))
      else String c (collapse_ws false r)
  end.

Definition re_sub_ws (s : string) : string := collapse_ws false s.

Fixpoint lstrip (s : string) : string :=
  match s with
  | EmptyString => EmptyString
  | String c r => if isspace c then lstrip r else s
  end.

Fixpoint rstrip (s : string) : string :=
  match s with
  | EmptyString => EmptyString
  | String c r =>
      match rstrip r with
      | EmptyString => if isspace c then EmptyString else String c EmptyString
      | r' => String c r'
      end
  end.

(** [s.strip()] *)
Definition strip (s : string) : string := rstrip (lstrip s).

(** [s.replace(c, " ")] for a one-character [c]. *)
Fixpoint replace_char (c : ascii) (s : string) : string :=
  match s with
  | EmptyString => EmptyString
  | String d r =>
      String (if Ascii.eqb d c then " "%char else d) (replace_char c r)
  end.

(** [s.split()]: the maximal runs of non-whitespace, in order.  [cur] is
    the word being read, reversed. *)
Fixpoint split_ws (cur : list ascii) (s : string) : list string :=
  let flush (rest : list string) :=
    match cur with
    | [] => rest
    | _ => string_of_list_ascii (rev cur) :: rest
    end in
  match s with
  | EmptyString => flush []
  | String c r =>
      if isspace c then flush (split_ws [] r)
      else split_ws (c :: cur) r
  end.

Definition split (s : string) : list string := split_ws [] s.

(** [sep.join(l)] *)
Fixpoint join (sep : string) (l : list string) : string :=
  match l with
  | [] => EmptyString
  | [w] => w
  | w :: r => w ++ sep ++ join sep r
  end.

(** [needle in hay] on strings: [needle] occurs as a contiguous substring. *)
Fixpoint contains (needle hay : string) : bool :=
  prefix needle hay
  || match hay with
     | EmptyString => false
     | String _ r => contains needle r
     end.

(** [x in l] for a list (or a set) of strings. *)
Definition mem (x : string) (l : list string) : bool :=
  existsb (String.eqb x) l.

(** [list(dict.fromkeys(l))]: first occurrences, in order.  [seen] holds
    the keys already inserted. *)
Fixpoint fromkeys (seen l : list string) : list string :=
  match l with
  | [] => []
  | x :: r => if mem x seen then fromkeys seen r
              else x :: fromkeys (x :: seen) r
  end.

(** [l[i : i + n]] *)
Definition slice {A} (l : list A) (i n : nat) : list A :=
  firstn n (skipn i l).

End PyStr.

(* ================================================================= *)
(** ** Numbers: rounding, clipping, truncation *)

Module PyNum.

Local Open Scope Q_scope.

Definition Qltb (a b : Q) : bool := negb (Qle_bool b a).

(** [np.round(x)] and the builtin [round(x)]: nearest integer, ties to the
    even one. *)
Definition round_half_even (x : Q) : Z :=
  let f := Qfloor x in
  match Qcompare (x - inject_Z f) (1 # 2) with
  | Lt => f
  | Gt => (f + 1)%Z
  | Eq => if Z.even f then f else (f + 1)%Z
  end.

Definition np_round (x : Q) : Q := inject_Z (round_half_even x).

(** [np.clip(a, lo, hi)], that is [minimum(maximum(a, lo), hi)]. *)
Definition np_clip (a lo hi : Q) : Q :=
  let m := if Qltb a lo then lo else a in
  if Qltb hi m then hi else m.

(** [int(x)] on a float: truncation towards zero. *)
Definition py_int (x : Q) : Z :=
  if Qltb x 0 then Qceiling x else Qfloor x.

(** The builtin [min(a, b)]: [b] when [b < a], else [a]. *)
Definition py_min (a b : Q) : Q := if Qltb b a then b else a.

End PyNum.

(* ================================================================= *)
(** ** The world the service runs in *)

Module Py.

(** Exception classes that occur.  All of them derive from [Exception];
    only [FileNotFoundError] is matched by [except FileNotFoundError]. *)
Inductive exn :=
| FileNotFoundError
| UnpicklingError
| AttributeError
| IndexError
| LookupError
| ImportError
| RuntimeError.

(** A row of features, and the two fitted scikit-learn objects.  Both act
    row by row on a 2-D array: [scaler.transform] maps every row to a row,
    [model.predict] maps every row to one prediction. *)
Definition row := list Q.
Definition Scaler := row -> row.
Definition Model := row -> Q.

(** A file on disk as [joblib.load] sees it. *)
Inductive file (A : Type) :=
| Absent
| Unreadable
| Holds (a : A).
Arguments Absent {A}.
Arguments Unreadable {A}.
Arguments Holds {A} a.

(** The directory [artifacts/]. *)
Record Artifacts := {
  eligibility_model_joblib : file Model;
  eligibility_scaler_joblib : file Scaler;
  feature_names_joblib : file (list string)
}.

(** What one call to the hosted LLM, followed by [_extract_json] and the
    reading of the fields of the reply, comes to:
    - [LlmRaises e]: the request, or the decoding of a field of the reply
      (an ill-typed score, a reason list that cannot be iterated), raises;
    - [LlmNoJson]: [_extract_json] gives [None] or the empty object;
    - [LlmJson a]: a non-empty JSON object with fields [a]. *)
Inductive llm_reply (A : Type) :=
| LlmRaises (e : exn)
| LlmNoJson
| LlmJson (a : A).
Arguments LlmRaises {A} e.
Arguments LlmNoJson {A}.
Arguments LlmJson {A} a.

(** Fields of the replies.  A list element [r] is kept as [str(r)] when it
    is truthy and as the empty string when it is falsy. *)
Record score_json := {
  js_score : option Q;              (* data.get("score") *)
  js_reasons : list string          (* data.get("reasons") or [] *)
}.

Record check_json := {
  js_eligible : bool;               (* truth value of data.get("eligible", True) *)
  js_reason : string                (* data.get("reason"), empty when falsy *)
}.

Record LLM := {
  llm_full_context : string -> Z -> Q -> bool -> llm_reply score_json;
  llm_check : string -> llm_reply check_json;
  llm_flags : string -> llm_reply (list string);
  llm_xai : Z -> Z -> Q -> bool -> Z -> llm_reply (list string)
}.

Inductive wordnet_pos := ADJ | VERB | NOUN | ADV.

(** The NLTK functions, as they behave once their data is installed. *)
Record NLTK := {
  word_tokenize : string -> list string;
  pos_tag : list string -> list (string * string);
  lemmatize : string -> wordnet_pos -> string
}.

Inductive llm_endpoint := ForScore | ForCheck | ForFlags | ForXai.

(** Calls that leave the process. *)
Inductive event :=
| EvJoblibLoad (name : string)
| EvModelPredict
| EvLlm (k : llm_endpoint)
| EvNltkDownload (resource : string)
| EvWordTokenize.

(** What the service cannot change. *)
Record Externals := {
  artifacts : Artifacts;
  GEMINI_API_KEY : option string;   (* os.environ.get("GEMINI_API_KEY") *)
  genai_configures : bool;          (* import google.generativeai; genai.configure(...) *)
  llm : LLM;
  nltk_importable : bool;
  nltk_download_works : bool;
  nltk : NLTK
}.

(** The module globals of [eligibility_service], [gemini_client] and
    [nlp_health]. *)
Record Globals := {
  _model : option Model;
  _scaler : option Scaler;
  _feature_names : option (list string);
  _gemini_configured : bool;
  _gemini_disabled : bool;
  _nltk_ready : bool
}.

(** NLTK data present on disk. *)
Record NltkData := {
  has_punkt_tab : bool;
  has_wordnet : bool;
  has_tagger : bool
}.

Record World := {
  ext : Externals;
  glob : Globals;
  nltk_data : NltkData;
  log : list event                  (* most recent last *)
}.

Definition with_glob (f : Globals -> Globals) (w : World) : World :=
  {| ext := ext w; glob := f (glob w); nltk_data := nltk_data w; log := log w |}.

Definition with_nltk_data (f : NltkData -> NltkData) (w : World) : World :=
  {| ext := ext w; glob := glob w; nltk_data := f (nltk_data w); log := log w |}.

Definition with_log (f : list event -> list event) (w : World) : World :=
  {| ext := ext w; glob := glob w; nltk_data := nltk_data w; log := f (log w) |}.

Definition set_model (m : option Model) (g : Globals) : Globals :=
  {| _model := m; _scaler := _scaler g; _feature_names := _feature_names g;
     _gemini_configured := _gemini_configured g;
     _gemini_disabled := _gemini_disabled g; _nltk_ready := _nltk_ready g |}.

Definition set_scaler (s : option Scaler) (g : Globals) : Globals :=
  {| _model := _model g; _scaler := s; _feature_names := _feature_names g;
     _gemini_configured := _gemini_configured g;
     _gemini_disabled := _gemini_disabled g; _nltk_ready := _nltk_ready g |}.

Definition set_feature_names (n : option (list string)) (g : Globals) : Globals :=
  {| _model := _model g; _scaler := _scaler g; _feature_names := n;
     _gemini_configured := _gemini_configured g;
     _gemini_disabled := _gemini_disabled g; _nltk_ready := _nltk_ready g |}.

Definition set_gemini (configured disabled : bool) (g : Globals) : Globals :=
  {| _model := _model g; _scaler := _scaler g; _feature_names := _feature_names g;
     _gemini_configured := configured;
     _gemini_disabled := disabled; _nltk_ready := _nltk_ready g |}.

Definition set_nltk_ready (b : bool) (g : Globals) : Globals :=
  {| _model := _model g; _scaler := _scaler g; _feature_names := _feature_names g;
     _gemini_configured := _gemini_configured g;
     _gemini_disabled := _gemini_disabled g; _nltk_ready := b |}.

(** *** State and exceptions *)

Definition M (A : Type) : Type := World -> (exn + A) * World.

Definition ret {A} (a : A) : M A := fun w => (inr a, w).

Definition raise {A} (e : exn) : M A := fun w => (inl e, w).

Definition bind {A B} (c : M A) (k : A -> M B) : M B :=
  fun w => match c w with
           | (inr a, w') => k a w'
           | (inl e, w') => (inl e, w')
           end.

(** [try: body  except Exception as e: handler e] *)
Definition try_except {A} (body : M A) (handler : exn -> M A) : M A :=
  fun w => match body w with
           | (inl e, w') => handler e w'
           | r => r
           end.

Definition gets {A} (f : World -> A) : M A := fun w => (inr (f w), w).

Definition modify (f : World -> World) : M unit := fun w => (inr tt, f w).

Definition emit (e : event) : M unit := modify (with_log (fun l => (l ++ [e])%list)).

End Py.

Declare Scope py_scope.
Delimit Scope py_scope with py.
Notation "x <- c ;; k" := (Py.bind c (fun x => k))
  (at level 100, c at next level, right associativity) : py_scope.
Notation "c ;;; k" := (Py.bind c (fun _ => k))
  (at level 100, right associativity) : py_scope.

(* ================================================================= *)
(** ** gemini_client.py *)

Module GeminiClient.
Import Py.
Local Open Scope py_scope.

(** [x or ""] for [x] of type [Optional[str]]. *)
Definition or_empty (x : option string) : string :=
  match x with Some s => s | None => "" end.

Definition _ensure_gemini : M bool :=
  g <- gets glob ;;
  if _gemini_configured g then ret (negb (_gemini_disabled g))
  else
    key <- gets (fun w => GEMINI_API_KEY (ext w)) ;;
    let api_key := PyStr.strip (or_empty key) in
    if negb (PyStr.truthy api_key)
    then (modify (with_glob (set_gemini true true)) ;;; ret false)
    else
      (configures <- gets (fun w => genai_configures (ext w)) ;;
       if configures
       then (modify (with_glob (set_gemini true false)) ;;; ret true)
       else (modify (with_glob (set_gemini true true)) ;;; ret false)).

Definition is_gemini_available : M bool := _ensure_gemini.

(** [model.generate_content(...)], [_extract_json(response.text)] and the
    access to the fields, as one call. *)
Definition generate {A} (k : llm_endpoint) (reply : llm_reply A) : M (option A) :=
  emit (EvLlm k) ;;;
  match reply with
  | LlmRaises e => raise e
  | LlmNoJson => ret None
  | LlmJson a => ret (Some a)
  end.

(** [[str(r).strip() for r in reasons if r][:6]] *)
Definition clean_reasons (reasons : list string) : list string :=
  firstn 6 (map PyStr.strip (filter PyStr.truthy reasons)).

Definition str_of_int (z : Z) : string := NilZero.string_of_int (Z.to_int z).

Definition eligibility_score_from_full_context
  (health_summary : string) (days_since_last_donation : Z)
  (distance_km : Q) (is_available_now : bool)
  : M (option (Z * list string)) :=
  enabled <- _ensure_gemini ;;
  if negb enabled then ret None
  else
    try_except
      (let summary :=
         match PyStr.strip health_summary with
         | EmptyString => "No health issues reported."
         | s => s
         end in
       ask <- gets (fun w => llm_full_context (llm (ext w))) ;;
       data <- generate ForScore
                 (ask summary days_since_last_donation distance_km is_available_now) ;;
       match data with
       | None => ret None
       | Some d =>
           match js_score d with
           | None => ret None
           | Some v =>
               let score := Z.max 0 (Z.min 100 (PyNum.round_half_even v)) in
               let reasons := clean_reasons (js_reasons d) in
               let reasons :=
                 match reasons with
                 | [] => ["Eligibility score: " ++ str_of_int score
                            ++ "/100 (from full context)."]
                 | _ => reasons
                 end in
               ret (Some (score, reasons))
           end
       end)
      (fun _ => ret None).

Definition check_blood_donation_eligible (health_summary : string)
  : M (option (bool * option string)) :=
  if negb (PyStr.truthy health_summary)
     || negb (PyStr.truthy (PyStr.strip health_summary))
  then ret (Some (true, None))
  else
    enabled <- _ensure_gemini ;;
    if negb enabled then ret None
    else
      try_except
        (ask <- gets (fun w => llm_check (llm (ext w))) ;;
         data <- generate ForCheck (ask (PyStr.strip health_summary)) ;;
         match data with
         | None => ret None
         | Some d =>
             if js_eligible d then ret (Some (true, None))
             else
               let reason :=
                 PyStr.strip
                   (match js_reason d with
                    | EmptyString =>
                        "Health summary indicates conditions that typically disqualify blood donation."
                    | r => r
                    end) in
               ret (Some (false,
                          match reason with
                          | EmptyString => None
                          | r => Some r
                          end))
         end)
        (fun _ => ret None).

Definition allowed : list string :=
  ["recent_illness"; "diabetes"; "anemia"; "bp"; "medication"; "serious_condition"].

Definition generate_health_flags_with_gemini (health_summary : string)
  : M (option (list string)) :=
  if negb (PyStr.truthy health_summary)
     || negb (PyStr.truthy (PyStr.strip health_summary))
  then ret (Some [])
  else
    enabled <- _ensure_gemini ;;
    if negb enabled then ret None
    else
      try_except
        (ask <- gets (fun w => llm_flags (llm (ext w))) ;;
         data <- generate ForFlags (ask (PyStr.strip health_summary)) ;;
         match data with
         | Some flags => ret (Some (filter (fun f => PyStr.mem f allowed) flags))
         | None => ret None
         end)
        (fun _ => ret None).

Definition generate_xai_reasons_with_gemini
  (score days_since_last_donation : Z) (distance_km : Q)
  (is_available_now : bool) (health_flag_count : Z)
  : M (option (list string)) :=
  enabled <- _ensure_gemini ;;
  if negb enabled then ret None
  else
    try_except
      (ask <- gets (fun w => llm_xai (llm (ext w))) ;;
       data <- generate ForXai
                 (ask score days_since_last_donation distance_km
                      is_available_now health_flag_count) ;;
       match data with
       | Some reasons => ret (Some (clean_reasons reasons))
       | None => ret None
       end)
      (fun _ => ret None).

End GeminiClient.

(* ================================================================= *)
(** ** eligibility_service.py *)

Module EligibilityService.
Import Py.
Local Open Scope py_scope.

(** [joblib.load(path)] *)
Definition joblib_load {A} (name : string) (f : file A) : M A :=
  emit (EvJoblibLoad name) ;;;
  match f with
  | Absent => raise FileNotFoundError
  | Unreadable => raise UnpicklingError
  | Holds a => ret a
  end.

(** [os.path.isfile(path)] *)
Definition isfile {A} (f : file A) : bool :=
  match f with Absent => false | _ => true end.

Definition _load_model : M unit :=
  g <- gets glob ;;
  match _model g with
  | Some _ => ret tt
  | None =>
      dir <- gets (fun w => artifacts (ext w)) ;;
      if negb (isfile (eligibility_model_joblib dir))
      then raise FileNotFoundError
      else
        (m <- joblib_load "eligibility_model.joblib" (eligibility_model_joblib dir) ;;
         modify (with_glob (set_model (Some m))) ;;;
         s <- joblib_load "eligibility_scaler.joblib" (eligibility_scaler_joblib dir) ;;
         modify (with_glob (set_scaler (Some s))) ;;;
         n <- joblib_load "feature_names.joblib" (feature_names_joblib dir) ;;
         modify (with_glob (set_feature_names (Some n))))
  end.

(** [health_flags] has its announced type [list] (the handler passes
    [body.healthFlags], a [List[str]]), so [isinstance(health_flags, list)]
    holds: the count is [len(health_flags)] and [flags_list] is the list
    itself. *)
Definition health_count (health_flags : list string) : Z :=
  Z.of_nat (List.length health_flags).

(** The 1 x 4 array [x]. *)
Definition _build_features
  (days_since_last_donation : Z) (distance_km : Q)
  (is_available_now : bool) (health_flags : list string) : list row :=
  [[ inject_Z days_since_last_donation;
     distance_km;
     if is_available_now then 1%Q else 0%Q;
     inject_Z (health_count health_flags) ]].

(** [_scaler.transform(x)]; [_scaler] is [None] when an earlier load
    stopped after the model. *)
Definition scaler_transform (x : list row) : M (list row) :=
  s <- gets (fun w => _scaler (glob w)) ;;
  match s with
  | None => raise AttributeError
  | Some f => ret (map f x)
  end.

(** [_model.predict(x_scaled)] *)
Definition model_predict (x : list row) : M (list Q) :=
  m <- gets (fun w => _model (glob w)) ;;
  match m with
  | None => raise AttributeError
  | Some f => emit EvModelPredict ;;; ret (map f x)
  end.

(** [a[0]] *)
Definition item0 (a : list Q) : M Q :=
  match a with
  | [] => raise IndexError
  | v :: _ => ret v
  end.

Definition serious_reason : string :=
  "Serious health condition (e.g. cancer) – not eligible for donation".

(** The rule-based reasons, built when the LLM gave none. *)
Definition rule_based_reasons
  (score : Q) (days_since_last_donation : Z) (distance_km : Q)
  (is_available_now : bool) (flags_list : list string) : list string :=
  if PyStr.mem "serious_condition" flags_list
  then [serious_reason]
  else
    ((if (days_since_last_donation >=? 90)%Z
      then ["Eligible by donation gap (90+ days)"]
      else if (days_since_last_donation >=? 60)%Z
           then ["Donation gap moderate (60–90 days)"]
           else ["Recently donated – check eligibility"])
     ++ (if Qle_bool distance_km 5
         then ["Proximity match – within 5 km"]
         else if Qle_bool distance_km 15
              then ["Within 15 km"]
              else [])
     ++ (if is_available_now then ["Marked available now"] else [])
     ++ (if Qle_bool 80 score then ["High suitability score"] else []))%list.

Definition compute_score_and_reasons
  (days_since_last_donation : Z) (distance_km : Q)
  (is_available_now : bool) (health_flags : list string)
  : M (Z * list string) :=
  _load_model ;;;
  let x := _build_features days_since_last_donation distance_km
             is_available_now health_flags in
  x_scaled <- scaler_transform x ;;
  predicted <- model_predict x_scaled ;;
  p0 <- item0 predicted ;;
  let score := PyNum.np_clip (PyNum.np_round p0) 0 100 in
  let flags_list := health_flags in
  let score :=
    if PyStr.mem "serious_condition" flags_list
    then PyNum.py_min score 15 else score in
  reasons <-
    try_except
      (gemini_reasons <-
         GeminiClient.generate_xai_reasons_with_gemini
           (PyNum.py_int score) days_since_last_donation distance_km
           is_available_now (health_count health_flags) ;;
       match gemini_reasons with
       | Some (r :: rs) => ret (r :: rs)
       | _ => ret []
       end)
      (fun _ => ret []) ;;
  let reasons :=
    match reasons with
    | [] => rule_based_reasons score days_since_last_donation distance_km
              is_available_now flags_list
    | _ => reasons
    end in
  ret (PyNum.py_int score, reasons).

End EligibilityService.

(* ================================================================= *)
(** ** train_model.py and train_from_csv.py: the label function *)

Module TrainModel.
Local Open Scope Q_scope.

(** Reference rule-based score (0-100) used to generate training labels. *)
Definition rule_based_score
  (days_since : Z) (distance_km : Q) (is_available : bool)
  (health_flag_count : Z) : Q :=
  let min_days := 90%Z in
  let score := 50 in
  let score :=
    if (days_since >=? min_days)%Z then score + 25
    else if (days_since >=? 60)%Z then score + 10
         else score in
  let score := if is_available then score + 15 else score in
  let score :=
    if Qle_bool distance_km 5 then score + 10
    else if Qle_bool distance_km 15 then score + 5
         else score in
  let score :=
    if (health_flag_count =? 0)%Z then score + 5
    else score - inject_Z (health_flag_count * 10) in
  PyNum.np_clip (PyNum.np_round score) 0 100.

End TrainModel.

Module TrainFromCsv.
Local Open Scope Q_scope.

(** Target label (0-100) for training. *)
Definition rule_based_score
  (days_since : Z) (distance_km : Q) (is_available : bool)
  (health_flag_count : Z) : Q :=
  let min_days := 90%Z in
  let score := 50 in
  let score :=
    if (days_since >=? min_days)%Z then score + 25
    else if (days_since >=? 60)%Z then score + 10
         else score in
  let score := if is_available then score + 15 else score in
  let score :=
    if Qle_bool distance_km 5 then score + 10
    else if Qle_bool distance_km 15 then score + 5
         else score in
  let score :=
    if (health_flag_count =? 0)%Z then score + 5
    else score - inject_Z (health_flag_count * 10) in
  PyNum.np_clip (PyNum.np_round score) 0 100.

End TrainFromCsv.

(* ================================================================= *)
(** ** nlp_health.py *)

Module NlpHealth.
Import Py.
Local Open Scope py_scope.

(** [nltk.data.find(resource)], and [nltk.download(resource, quiet=True)]
    when it raises [LookupError].  A failed download does not raise. *)
Definition find_or_download
  (resource : string) (present : NltkData -> bool)
  (install : NltkData -> NltkData) : M unit :=
  d <- gets nltk_data ;;
  if present d then ret tt
  else
    (emit (EvNltkDownload resource) ;;;
     works <- gets (fun w => nltk_download_works (ext w)) ;;
     if works then modify (with_nltk_data install) else ret tt).

Definition import_nltk : M unit :=
  importable <- gets (fun w => nltk_importable (ext w)) ;;
  if importable then ret tt else raise ImportError.

Definition _ensure_nltk : M unit :=
  g <- gets glob ;;
  if _nltk_ready g then ret tt
  else
    (import_nltk ;;;
     find_or_download "punkt_tab" has_punkt_tab
       (fun d => {| has_punkt_tab := true; has_wordnet := has_wordnet d;
                    has_tagger := has_tagger d |}) ;;;
     find_or_download "wordnet" has_wordnet
       (fun d => {| has_punkt_tab := has_punkt_tab d; has_wordnet := true;
                    has_tagger := has_tagger d |}) ;;;
     find_or_download "averaged_perceptron_tagger_eng" has_tagger
       (fun d => {| has_punkt_tab := has_punkt_tab d; has_wordnet := has_wordnet d;
                    has_tagger := true |}) ;;;
     modify (with_glob (set_nltk_ready true))).

(** Flag -> list of terms (lemmas/synonyms) to match, in the order of the
    dictionary literal. *)
Definition HEALTH_TERMS : list (string * list string) :=
  [ ("recent_illness",
      ["ill"; "illness"; "sick"; "sickness"; "fever"; "cold"; "cough"; "infection";
       "infect"; "flu"; "unwell"; "recently"; "virus"; "feverish"; "running nose";
       "sore throat"; "cold"; "weak"; "unwell"]);
    ("diabetes",
      ["diabetes"; "diabetic"; "sugar"; "glucose"; "blood sugar"; "hyperglycemia";
       "hypoglycemia"; "insulin"; "prediabetic"]);
    ("anemia",
      ["anemia"; "anaemia"; "haemoglobin"; "hemoglobin"; "hb"; "low iron"; "iron";
       "deficient"; "thalassemia"]);
    ("bp",
      ["blood pressure"; "hypertension"; "hypertensive"; "hypotension"; "bp";
       "high bp"; "low bp"; "pressure"]);
    ("medication",
      ["medication"; "medicine"; "medicines"; "drug"; "drugs"; "antibiotic";
       "antibiotics"; "treatment"; "prescription"; "taking"; "on drugs"; "tablet";
       "injection"]);
    ("serious_condition",
      ["cancer"; "chemotherapy"; "hiv"; "aids"; "hepatitis"; "heart disease"; "stroke";
       "major surgery"; "leukemia"; "lymphoma"; "tumor"; "malignant"; "oncology"]) ].

Definition _normalize_word (s : string) : string :=
  PyStr.lower (PyStr.strip (PyStr.re_sub_ws s)).

(** [string.punctuation], by code point. *)
Definition punctuation : list ascii :=
  map ascii_of_nat (seq 33 15 ++ seq 58 7 ++ seq 91 6 ++ seq 123 4)%list.

Definition nltk_word_tokenize (text : string) : M (list string) :=
  emit EvWordTokenize ;;;
  d <- gets nltk_data ;;
  if has_punkt_tab d
  then (f <- gets (fun w => word_tokenize (nltk (ext w))) ;; ret (f text))
  else raise LookupError.

Definition nltk_pos_tag (tokens : list string) : M (list (string * string)) :=
  d <- gets nltk_data ;;
  if has_tagger d
  then (f <- gets (fun w => pos_tag (nltk (ext w))) ;; ret (f tokens))
  else raise LookupError.

Definition nltk_lemmatize (w : string) (pos : wordnet_pos) : M string :=
  d <- gets nltk_data ;;
  if has_wordnet d
  then (f <- gets (fun w => lemmatize (nltk (ext w))) ;; ret (f w pos))
  else raise LookupError.

Definition pos_to_wn (tag : string) : wordnet_pos :=
  if prefix "J" tag then ADJ
  else if prefix "V" tag then VERB
  else if prefix "N" tag then NOUN
  else if prefix "R" tag then ADV
  else NOUN.

(** The loop [for word, tag in tagged] with its accumulator [lemmas]. *)
Fixpoint lemmas_loop (tagged : list (string * string)) (lemmas : list string)
  : M (list string) :=
  match tagged with
  | [] => ret lemmas
  | (word, tag) :: rest =>
      let w := PyStr.lower word in
      if negb (PyStr.isalnum w) || (String.length w <? 2)%nat
      then lemmas_loop rest lemmas
      else
        (lem <- nltk_lemmatize w (pos_to_wn tag) ;;
         let lemmas := (lemmas ++ [lem])%list in
         let lemmas := if negb (String.eqb lem w) then (lemmas ++ [w])%list
                       else lemmas in
         lemmas_loop rest lemmas)
  end.

(** [list(set(lemmas))] leaves the order open; the first occurrences are
    kept in order here.  The only caller puts the result into a set. *)
Definition _tokenize_and_lemmatize (text : string) : M (list string) :=
  _ensure_nltk ;;;
  import_nltk ;;;
  let text := _normalize_word text in
  if negb (PyStr.truthy text) then ret []
  else
    (let text := fold_left (fun t c => PyStr.replace_char c t) punctuation text in
     tokens <- nltk_word_tokenize text ;;
     tagged <- nltk_pos_tag tokens ;;
     lemmas <- lemmas_loop tagged [] ;;
     ret (PyStr.fromkeys [] lemmas)).

(** The phrases of 2 and 3 consecutive words. *)
Definition phrases (words : list string) : list string :=
  flat_map
    (fun i =>
       flat_map
         (fun n =>
            if (i + n <=? List.length words)%nat
            then [PyStr.join " " (PyStr.slice words i n)]
            else [])
         [2; 3]%nat)
    (seq 0 (List.length words)).

(** One flag of the loop over [HEALTH_TERMS.items()]: the inner loop stops
    at the first term that matches. *)
Definition term_matches (tokens_set : list string) (text term : string) : bool :=
  let t_norm := _normalize_word term in
  PyStr.mem t_norm tokens_set || PyStr.contains t_norm text.

Definition matched_flags (tokens_set : list string) (text : string) : list string :=
  flat_map
    (fun item : string * list string =>
       let (flag, terms) := item in
       if existsb (term_matches tokens_set text) terms then [flag] else [])
    HEALTH_TERMS.

(** NLTK + keyword-based extraction (fallback when Gemini is not used). *)
Definition _normalize_health_to_flags_nltk (health_summary : string)
  : M (list string) :=
  let text := _normalize_word health_summary in
  if negb (PyStr.truthy text) then ret []
  else
    (tokens_and_phrases <- _tokenize_and_lemmatize health_summary ;;
     let words := PyStr.split text in
     let tokens_and_phrases := (tokens_and_phrases ++ phrases words)%list in
     let tokens_set := tokens_and_phrases in
     let flags := matched_flags tokens_set text in
     ret (PyStr.fromkeys [] flags)).

(** A value passed where a [str] is announced. *)
Inductive py_value :=
| PyNone
| PyStr (s : string)
| PyOther (truth : bool).   (* any other object, with its truth value *)

(** Map free-text health summary to eligibility flags. *)
Definition normalize_health_to_flags (health_summary : py_value)
  : M (list string) :=
  match health_summary with
  | PyStr s =>
      if negb (PyStr.truthy s) then ret []
      else
        let text := _normalize_word s in
        if negb (PyStr.truthy text) then ret []
        else
          (gemini_flags <-
             try_except (GeminiClient.generate_health_flags_with_gemini s)
                        (fun _ => ret None) ;;
           match gemini_flags with
           | Some flags => ret flags
           | None => _normalize_health_to_flags_nltk s
           end)
  | PyNone => ret []
  | PyOther _ => ret []
  end.

End NlpHealth.

(* ================================================================= *)
(** ** main.py: the POST handlers *)

Module Main.
Import Py.
Local Open Scope py_scope.

Record PredictEligibilityBody := {
  daysSinceLastDonation : Z;
  distanceKm : Q;
  isAvailableNow : bool;
  healthFlags : list string;
  healthSummary : option string
}.

Record NormalizeHealthBody := {
  text : string
}.

(** The JSON object a handler returns. *)
Inductive payload :=
| ScoreReasons (score : Z) (reasons : list string)   (* {"score", "reasons"} *)
| Eligible (eligible : bool)                         (* {"eligible"} *)
| EligibleReason (eligible : bool) (reason : option string)
                                                     (* {"eligible", "reason"} *)
| FlagList (flags : list string).                    (* {"flags"} *)

(** A returned object is sent with status 200; [raise HTTPException(...)]
    is sent with its [status_code]. *)
Inductive response :=
| Returned (p : payload)
| HTTPException (status_code : Z) (detail : exn).

Definition status (r : response) : Z :=
  match r with
  | Returned _ => 200
  | HTTPException c _ => c
  end.

(** [body.text or ""] *)
Definition text_or_empty (b : NormalizeHealthBody) : string :=
  match text b with EmptyString => "" | s => s end.

(** Each handler is [try: ... except ...]; the body of the [try] and the
    [except] clauses are named apart. *)

Definition predict_eligibility_try (body : PredictEligibilityBody) : M response :=
  let health_summary :=
    PyStr.strip (GeminiClient.or_empty (healthSummary body)) in
  from_llm <-
    (if PyStr.truthy health_summary
     then GeminiClient.eligibility_score_from_full_context health_summary
            (daysSinceLastDonation body) (distanceKm body) (isAvailableNow body)
     else ret None) ;;
  match from_llm with
  | Some (score, reasons) => ret (Returned (ScoreReasons score reasons))
  | None =>
      sr <- EligibilityService.compute_score_and_reasons
              (daysSinceLastDonation body) (distanceKm body)
              (isAvailableNow body) (healthFlags body) ;;
      let (score, reasons) := sr in
      ret (Returned (ScoreReasons score reasons))
  end.

(** [except FileNotFoundError as e: ...  except Exception as e: ...] *)
Definition predict_eligibility_except (e : exn) : M response :=
  match e with
  | FileNotFoundError => ret (HTTPException 503 e)
  | _ => ret (HTTPException 500 e)
  end.

Definition predict_eligibility (body : PredictEligibilityBody) : M response :=
  try_except (predict_eligibility_try body) predict_eligibility_except.

Definition check_eligibility_from_health_try (body : NormalizeHealthBody)
  : M response :=
  result <- GeminiClient.check_blood_donation_eligible (text_or_empty body) ;;
  match result with
  | None => ret (Returned (Eligible true))
  | Some (eligible, reason) => ret (Returned (EligibleReason eligible reason))
  end.

(** [except Exception as e: return {"eligible": True, "reason": None}] *)
Definition check_eligibility_from_health_except (e : exn) : M response :=
  ret (Returned (EligibleReason true None)).

Definition check_eligibility_from_health (body : NormalizeHealthBody)
  : M response :=
  try_except (check_eligibility_from_health_try body)
             check_eligibility_from_health_except.

Definition normalize_health_try (body : NormalizeHealthBody) : M response :=
  flags <- NlpHealth.normalize_health_to_flags
             (NlpHealth.PyStr (text_or_empty body)) ;;
  ret (Returned (FlagList flags)).

(** [except Exception as e: raise HTTPException(status_code=500, ...)] *)
Definition normalize_health_except (e : exn) : M response :=
  ret (HTTPException 500 e).

Definition normalize_health (body : NormalizeHealthBody) : M response :=
  try_except (normalize_health_try body) normalize_health_except.

End Main.

(* ================================================================= *)
(** ** Vocabulary of the statements *)

Module Spec.
Import Py.
Local Open Scope py_scope.

(** The model can be used: it is loaded together with its scaler, or it is
    not loaded yet and the three files under [artifacts/] can be read. *)
Definition model_ready (w : World) : bool :=
  match _model (glob w) with
  | Some _ => match _scaler (glob w) with Some _ => true | None => false end
  | None =>
      match eligibility_model_joblib (artifacts (ext w)),
            eligibility_scaler_joblib (artifacts (ext w)),
            feature_names_joblib (artifacts (ext w)) with
      | Holds _, Holds _, Holds _ => true
      | _, _, _ => false
      end
  end.

(** The integer a prediction [p] becomes: rounded, clipped to 0..100, and
    capped at 15 for a serious condition. *)
Definition capped_score (p : Q) (serious : bool) : Z :=
  let s := Z.min (Z.max (PyNum.round_half_even p) 0) 100 in
  if serious then Z.min s 15 else s.

(** The status the error translation of [/predict-eligibility] gives. *)
Definition expected_status (e : exn) : Z :=
  match e with
  | FileNotFoundError => 503
  | _ => 500
  end.

(** A summary from which nothing can be extracted: [None], a value that is
    not a string, the empty string, or whitespace only. *)
Definition degenerate (v : NlpHealth.py_value) : bool :=
  match v with
  | NlpHealth.PyNone => true
  | NlpHealth.PyOther _ => true
  | NlpHealth.PyStr s => PyStr.all_chars PyStr.isspace s
  end.

(** A run that leaves the model and the files alone and
    logs at most the one LLM call [k]. *)
Definition llm_only (k : llm_endpoint) (w w1 : World) : Prop :=
  ext w1 = ext w
  /\ _model (glob w1) = _model (glob w)
  /\ _scaler (glob w1) = _scaler (glob w)
  /\ (log w1 = log w \/ log w1 = (log w ++ [EvLlm k])%list).

(** [s] occurs in [t]: [t = a ++ s ++ b]. *)
Definition occurs_in (s t : string) : Prop :=
  exists a b, t = a ++ s ++ b.

End Spec.

(* ================================================================= *)
(** ** Sample worlds, for the examples *)

Module Sample.
Import Py.

(** A scaler that leaves the row as it is and a model that predicts 86.5
    for every row. *)
Definition scaler : Scaler := fun r => r.
Definition model : Model := fun _ => 173 # 2.

Definition trained : Artifacts :=
  {| eligibility_model_joblib := Holds model;
     eligibility_scaler_joblib := Holds scaler;
     feature_names_joblib :=
       Holds ["days_since_last_donation"; "distance_km";
              "is_available_now"; "health_flag_count"] |}.

Definition untrained : Artifacts :=
  {| eligibility_model_joblib := Absent;
     eligibility_scaler_joblib := Absent;
     feature_names_joblib := Absent |}.

(** An LLM whose every call raises, and one that scores 42. *)
Definition failing_llm : LLM :=
  {| llm_full_context := fun _ _ _ _ => LlmRaises RuntimeError;
     llm_check := fun _ => LlmRaises RuntimeError;
     llm_flags := fun _ => LlmRaises RuntimeError;
     llm_xai := fun _ _ _ _ _ => LlmRaises RuntimeError |}.

Definition scoring_llm : LLM :=
  {| llm_full_context := fun _ _ _ _ =>
       LlmJson {| js_score := Some (42 # 1); js_reasons := ["Healthy donor"] |};
     llm_check := fun _ => LlmJson {| js_eligible := true; js_reason := "" |};
     llm_flags := fun _ => LlmJson [];
     llm_xai := fun _ _ _ _ _ => LlmJson ["Long gap since the last donation."] |}.

(** A tokenizer that splits at whitespace, tags every token as a noun and
    lemmatizes nothing. *)
Definition plain_nltk : NLTK :=
  {| word_tokenize := PyStr.split;
     pos_tag := map (fun t => (t, "NN"));
     lemmatize := fun w _ => w |}.

Definition fresh : Globals :=
  {| _model := None; _scaler := None; _feature_names := None;
     _gemini_configured := false; _gemini_disabled := false;
     _nltk_ready := false |}.

Definition world (a : Artifacts) (key : option string) (l : LLM) : World :=
  {| ext := {| artifacts := a; GEMINI_API_KEY := key; genai_configures := true;
               llm := l; nltk_importable := true; nltk_download_works := true;
               nltk := plain_nltk |};
     glob := fresh;
     nltk_data := {| has_punkt_tab := true; has_wordnet := true; has_tagger := true |};
     log := [] |}.

(** No API key: the LLM is never called. *)
Definition offline : World := world trained None failing_llm.

(** API key set, the LLM answers. *)
Definition online : World := world trained (Some "key") scoring_llm.

(** API key set, every LLM call raises. *)
Definition llm_down : World := world trained (Some "key") failing_llm.



(** No artifacts, no API key. *)
Definition no_model : World := world untrained None failing_llm.

Definition ideal_donor : Main.PredictEligibilityBody :=
  {| Main.daysSinceLastDonation := 120; Main.distanceKm := 2 # 1;
     Main.isAvailableNow := true; Main.healthFlags := [];
     Main.healthSummary := None |}.


End Sample.

(* ================================================================= *)
(** ** More vocabulary *)

Module Words.

(** A word: not empty, no whitespace in it. *)
Definition is_word (w : string) : bool :=
  PyStr.truthy w && PyStr.all_chars (fun c => negb (PyStr.isspace c)) w.

End Words.

Module State.
Import Py.

(** What [_ensure_gemini] answers in [w]: the cached answer when there is
    one, else whether a non-blank API key is set and the library can be
    configured with it. *)
Definition gemini_enabled (w : World) : bool :=
  if _gemini_configured (glob w)
  then negb (_gemini_disabled (glob w))
  else PyStr.truthy (PyStr.strip (GeminiClient.or_empty (GEMINI_API_KEY (ext w))))
       && genai_configures (ext w).

(** The world [_ensure_gemini] leaves. *)
Definition gemini_settled (w : World) : World :=
  if _gemini_configured (glob w) then w
  else with_glob (set_gemini true (negb (gemini_enabled w))) w.

(** [w] after the external call [e]. *)
Definition logged (e : event) (w : World) : World :=
  with_log (fun l => (l ++ [e])%list) w.

(** The log of [w'] is the log of [w] followed by [l]. *)
Definition logs (w w' : World) (l : list event) : Prop :=
  log w' = (log w ++ l)%list.

(** [w'] differs from [w] in its log only. *)
Definition more_log (w w' : World) : Prop :=
  ext w' = ext w /\ glob w' = glob w /\ nltk_data w' = nltk_data w.

(** No event of [l] is a read of an artifact file. *)
Definition reads_no_file (l : list event) : Prop :=
  forall name, ~ In (EvJoblibLoad name) l.


(** Every run of [c] relates the world before to the world after by [R]. *)
Definition preserves {A} (R : World -> World -> Prop) (c : M A) : Prop :=
  forall w r w', c w = (r, w') -> R w w'.

(** The model and the scaler in memory are the same in [w'] as in [w]. *)
Definition keeps_model (w w' : World) : Prop :=
  _model (glob w') = _model (glob w) /\ _scaler (glob w') = _scaler (glob w).

(** NLTK is installed with all its data. *)
Definition nltk_installed (w : World) : bool :=
  nltk_importable (ext w)
  && has_punkt_tab (nltk_data w) && has_wordnet (nltk_data w)
  && has_tagger (nltk_data w).

(** Flags are extracted locally: NLTK is installed and the LLM is
    switched off. *)
Definition local_nlp (w : World) : Prop :=
  nltk_installed w = true /\ gemini_enabled w = false.

(** From a world in [I], [c] returns and leaves a world in [I]. *)
Definition safe {A} (I : World -> Prop) (c : M A) : Prop :=
  forall w, I w -> exists a w', c w = (inr a, w') /\ I w'.

(** [c] raises nothing but exceptions in [P]. *)
Definition raises_only {A} (P : exn -> Prop) (c : M A) : Prop :=
  forall w e w1, c w = (inl e, w1) -> P e.

(** Every value [c] returns is in [Q]. *)
Definition returns_only {A} (Q : A -> Prop) (c : M A) : Prop :=
  forall w a w1, c w = (inr a, w1) -> Q a.

(** The exceptions of NLTK: the package or its data is missing. *)
Definition nltk_error (e : exn) : Prop :=
  e = ImportError \/ e = LookupError.

End State.

(* ================================================================= *)
(** ** gemini_client.py: [_extract_json] *)

Module ExtractJson.

(** [text.find(c)] for a one-character [c]: [None] stands for [-1]. *)
Fixpoint find_char (c : ascii) (s : string) : option nat :=
  match s with
  | EmptyString => None
  | String d r => if Ascii.eqb d c then Some 0%nat else option_map S (find_char c r)
  end.

(** [s[n:]] and [s[:n]] *)
Fixpoint drop (n : nat) (s : string) : string :=
  match n, s with
  | O, _ => s
  | S n', String _ r => drop n' r
  | S _, EmptyString => EmptyString
  end.

Fixpoint take (n : nat) (s : string) : string :=
  match n, s with
  | O, _ => EmptyString
  | S n', String c r => String c (take n' r)
  | S _, EmptyString => EmptyString
  end.

(** [s[a:b]] *)
Definition slice (s : string) (a b : nat) : string := take (b - a) (drop a s).

(** The loop [for i, c in enumerate(text[start:], start=start)] over the
    rest [s] of the text, at index [i] with the current [depth].  [Some i]
    is the index at which the loop reaches depth 0 and returns; [None] is
    the loop running to its end. *)
Fixpoint scan (depth : Z) (i : nat) (s : string) : option nat :=
  match s with
  | EmptyString => None
  | String c r =>
      if Ascii.eqb c "{" then scan (depth + 1) (S i) r
      else if Ascii.eqb c "}" then
        let depth := (depth - 1)%Z in
        if (depth =? 0)%Z then Some i else scan depth (S i) r
      else scan depth (S i) r
  end.

(** Extract first JSON object from text.  [json_loads] is [json.loads],
    with [None] for [JSONDecodeError]. *)
Definition _extract_json {J : Type} (json_loads : string -> option J)
  (text : string) : option J :=
  match find_char "{" text with
  | None => None
  | Some start =>
      match scan 0 start (drop start text) with
      | Some i => json_loads (slice text start (i + 1))
      | None => None
      end
  end.

(** The number of ["{"] minus the number of ["}"] in [s]. *)
Fixpoint depth_of (s : string) : Z :=
  match s with
  | EmptyString => 0
  | String c r =>
      ((if Ascii.eqb c "{" then 1 else if Ascii.eqb c "}" then -1 else 0)
       + depth_of r)%Z
  end.

(** [cand] is a block of braces: it opens with ["{"], closes all its
    braces, and none of its proper prefixes does. *)
Definition block (cand : string) : Prop :=
  (exists r, cand = String "{" r)
  /\ depth_of cand = 0%Z
  /\ forall p q, cand = p ++ q -> p <> "" -> q <> "" -> (0 < depth_of p)%Z.

Definition no_open_brace (s : string) : bool :=
  PyStr.all_chars (fun c => negb (Ascii.eqb c "{")) s.

End ExtractJson.

(* ================================================================= *)
(** ** check_ml_working.py *)

Module CheckMlWorking.
Import Py.
Local Open Scope py_scope.

(** Every [try] block of [main] ends in [return 1] when an exception
    reaches its [except] clauses, a failed [assert] included
    ([AssertionError] is an [Exception]); it falls through to the next
    block otherwise.  [Some code] is an early [return code], [None] the
    fall through.  The [print] calls are left out. *)

(** 1. Model loads and predicts *)
Definition check_predict : M (option Z) :=
  try_except
    (sr <- EligibilityService.compute_score_and_reasons 120 5 true [] ;;
     let (score, reasons) := sr in
     if negb ((0 <=? score)%Z && (score <=? 100)%Z) then ret (Some 1%Z)
     else if negb (1 <=? List.length reasons)%nat then ret (Some 1%Z)
     else ret None)
    (fun _ => ret (Some 1%Z)).

(** 2. NLP normalizes health text *)
Definition check_normalize : M (option Z) :=
  try_except
    (flags <- NlpHealth.normalize_health_to_flags (NlpHealth.PyStr "I have cancer") ;;
     if negb (PyStr.mem "serious_condition" flags) then ret (Some 1%Z)
     else
       (flags2 <- NlpHealth.normalize_health_to_flags (NlpHealth.PyStr "No illness") ;;
        ret None))
    (fun _ => ret (Some 1%Z)).

(** 3. Low score for serious condition *)
Definition check_serious : M (option Z) :=
  try_except
    (sr <- EligibilityService.compute_score_and_reasons 120 2 true
             ["serious_condition"] ;;
     let (score2, _) := sr in
     if negb (score2 <=? 15)%Z then ret (Some 1%Z) else ret None)
    (fun _ => ret (Some 1%Z)).

Definition main : M Z :=
  r1 <- check_predict ;;
  match r1 with
  | Some code => ret code
  | None =>
      r2 <- check_normalize ;;
      match r2 with
      | Some code => ret code
      | None =>
          r3 <- check_serious ;;
          match r3 with
          | Some code => ret code
          | None => ret 0%Z
          end
      end
  end.

End CheckMlWorking.

(* ================================================================= *)
(** ** More sample worlds *)

Module SampleMore.
Import Py.


(** The process of [w] at a later time, when its surroundings are those of
    [Sample.offline]: all artifacts readable, downloads working, no API
    key. *)
Definition later (w : World) : World :=
  {| ext := ext Sample.offline; glob := glob w; nltk_data := nltk_data w;
     log := log w |}.

(** The tokenizer data is missing and cannot be downloaded. *)
Definition no_tokenizer : World :=
  {| ext := {| artifacts := Sample.trained; GEMINI_API_KEY := None;
               genai_configures := true; llm := Sample.failing_llm;
               nltk_importable := true; nltk_download_works := false;
               nltk := Sample.plain_nltk |};
     glob := Sample.fresh;
     nltk_data := {| has_punkt_tab := false; has_wordnet := true;
                     has_tagger := true |};
     log := [] |}.

End SampleMore.

(* ================================================================= *)
(** * Properties *)

(** ** Numbers *)

Section Numbers.
Import PyNum.
Local Open Scope Z_scope.

Lemma Qltb_inject (a b : Z) : Qltb (inject_Z a) (inject_Z b) = (a <? b).
Proof.
  unfold Qltb, Qle_bool. simpl. rewrite !Z.mul_1_r.
  now rewrite Z.ltb_antisym.
Qed.

Lemma Qltb_true (a b : Q) : Qltb a b = true <-> (a < b)%Q.
Proof.
  unfold Qltb. rewrite negb_true_iff.
  split; intros H.
  - apply Qnot_le_lt. intros L. apply Qle_bool_iff in L. congruence.
  - destruct (Qle_bool b a) eqn:E; [|reflexivity].
    apply Qle_bool_iff in E. exfalso. revert E. now apply Qlt_not_le.
Qed.

Lemma Qltb_false (a b : Q) : Qltb a b = false <-> (b <= a)%Q.
Proof.
  unfold Qltb. rewrite negb_false_iff. apply Qle_bool_iff.
Qed.

Lemma np_clip_inject (r lo hi : Z) :
  np_clip (inject_Z r) (inject_Z lo) (inject_Z hi)
  = inject_Z (Z.min (Z.max r lo) hi).
Proof.
  unfold np_clip. rewrite Qltb_inject.
  destruct (Z.ltb_spec r lo); rewrite Qltb_inject.
  - destruct (Z.ltb_spec hi lo); f_equal; lia.
  - destruct (Z.ltb_spec hi r); f_equal; lia.
Qed.

Lemma py_min_inject (a b : Z) :
  py_min (inject_Z a) (inject_Z b) = inject_Z (Z.min a b).
Proof.
  unfold py_min. rewrite Qltb_inject.
  destruct (Z.ltb_spec b a); f_equal; lia.
Qed.

Lemma py_int_inject (z : Z) : py_int (inject_Z z) = z.
Proof.
  unfold py_int. change 0%Q with (inject_Z 0). rewrite Qltb_inject.
  destruct (z <? 0); [apply Qceiling_Z | apply Qfloor_Z].
Qed.

Lemma capped_score_range (p : Q) (serious : bool) :
  0 <= Spec.capped_score p serious <= 100.
Proof. unfold Spec.capped_score. destruct serious; lia. Qed.

Lemma capped_score_serious (p : Q) : Spec.capped_score p true <= 15.
Proof. unfold Spec.capped_score. lia. Qed.

(** The float [score] of [compute_score_and_reasons] holds an integer. *)
Lemma score_is_capped (p : Q) (serious : bool) :
  (if serious then py_min (np_clip (np_round p) 0 100) 15
   else np_clip (np_round p) 0 100)
  = inject_Z (Spec.capped_score p serious).
Proof.
  unfold np_round, Spec.capped_score.
  change 0%Q with (inject_Z 0). change 100%Q with (inject_Z 100).
  change 15%Q with (inject_Z 15).
  rewrite np_clip_inject. destruct serious; [apply py_min_inject | reflexivity].
Qed.

End Numbers.

(** ** The monad *)

Section Monad.
Import Py.

Lemma bind_returns {A B} (c : M A) (k : A -> M B) w a w1 :
  c w = (inr a, w1) -> bind c k w = k a w1.
Proof. unfold bind. now intros ->. Qed.

Lemma bind_raises {A B} (c : M A) (k : A -> M B) w e w1 :
  c w = (inl e, w1) -> bind c k w = (inl e, w1).
Proof. unfold bind. now intros ->. Qed.

(** A handler that returns makes the whole [try] return. *)
Lemma try_except_returns {A} (body : M A) (h : exn -> M A) w :
  (forall e w1, exists a w2, h e w1 = (inr a, w2)) ->
  exists a w2, try_except body h w = (inr a, w2).
Proof.
  intros Hh. unfold try_except.
  destruct (body w) as [[e | a] w1]; [apply Hh | eauto].
Qed.

End Monad.

(** ** Loading and applying the model *)

Section Model.
Import Py EligibilityService.

Lemma load_model_ready w :
  Spec.model_ready w = true ->
  exists w1 m s,
    _load_model w = (inr tt, w1)
    /\ _model (glob w1) = Some m /\ _scaler (glob w1) = Some s.
Proof.
  unfold Spec.model_ready, _load_model, bind, gets.
  destruct (_model (glob w)) as [m |] eqn:Em.
  - destruct (_scaler (glob w)) as [s |] eqn:Es; [| discriminate].
    intros _. exists w, m, s. auto.
  - destruct (eligibility_model_joblib (artifacts (ext w))) as [| | m]; try discriminate.
    destruct (eligibility_scaler_joblib (artifacts (ext w))) as [| | s] eqn:Es; try discriminate.
    destruct (feature_names_joblib (artifacts (ext w))) as [| | n] eqn:En; try discriminate.
    intros _. cbn.
    eexists _, m, s. repeat split.
Qed.

Lemma load_model_not_ready w :
  Spec.model_ready w = false ->
  (exists e w1, _load_model w = (inl e, w1))
  \/ (_load_model w = (inr tt, w) /\ _scaler (glob w) = None).
Proof.
  unfold Spec.model_ready, _load_model, bind, gets.
  destruct (_model (glob w)) as [m |] eqn:Em.
  - destruct (_scaler (glob w)) as [s |] eqn:Es; [discriminate |].
    intros _. right. auto.
  - intros H. left.
    destruct (eligibility_model_joblib (artifacts (ext w))) as [| | m];
      destruct (eligibility_scaler_joblib (artifacts (ext w))) as [| | s];
      destruct (feature_names_joblib (artifacts (ext w))) as [| | n];
      try discriminate; cbn; unfold raise; eauto.
Qed.

End Model.

(** ** The LLM client never raises *)

Section Gemini.
Import Py GeminiClient.

Lemma ensure_gemini_returns w :
  exists b w1, _ensure_gemini w = (inr b, w1).
Proof.
  unfold _ensure_gemini, bind, gets, modify, ret.
  destruct (_gemini_configured (glob w)); [eauto |].
  destruct (negb _); [eauto |].
  destruct (genai_configures (ext w)); eauto.
Qed.

Lemma xai_reasons_returns score days dist avail n w :
  exists r w1,
    generate_xai_reasons_with_gemini score days dist avail n w = (inr r, w1).
Proof.
  unfold generate_xai_reasons_with_gemini.
  destruct (ensure_gemini_returns w) as (b & w1 & E).
  rewrite (bind_returns _ _ _ _ _ E).
  destruct b; cbn [negb].
  - apply try_except_returns. intros. unfold ret. eauto.
  - unfold ret. eauto.
Qed.

End Gemini.

Section Compute.
Import Py EligibilityService.

Lemma rule_based_reasons_nonempty score days dist avail flags :
  rule_based_reasons score days dist avail flags <> [].
Proof.
  unfold rule_based_reasons.
  destruct (PyStr.mem _ _); [discriminate |].
  destruct (days >=? 90)%Z; [discriminate |].
  destruct (days >=? 60)%Z; discriminate.
Qed.

Lemma scaler_transform_some w s x :
  _scaler (glob w) = Some s -> scaler_transform x w = (inr (map s x), w).
Proof. intros H. unfold scaler_transform, bind, gets. now rewrite H. Qed.

Lemma model_predict_some w m x :
  _model (glob w) = Some m ->
  model_predict x w
  = (inr (map m x), with_log (fun l => (l ++ [EvModelPredict])%list) w).
Proof. intros H. unfold model_predict, bind, gets. now rewrite H. Qed.

Lemma load_model_loaded w m :
  _model (glob w) = Some m -> _load_model w = (inr tt, w).
Proof. intros H. unfold _load_model, bind, gets. now rewrite H. Qed.

(** Once the model is loaded, the score is the capped prediction of the
    model on the scaled feature row. *)
Lemma compute_after_load w w1 m s days dist avail flags :
  _load_model w = (inr tt, w1) ->
  _model (glob w1) = Some m ->
  _scaler (glob w1) = Some s ->
  exists rs w',
    compute_score_and_reasons days dist avail flags w
    = (inr (Spec.capped_score
              (m (s [inject_Z days; dist; if avail then 1%Q else 0%Q;
                     inject_Z (Z.of_nat (List.length flags))]))
              (PyStr.mem "serious_condition" flags), rs), w')
    /\ rs <> []
    /\ (rs = rule_based_reasons
               (inject_Z
                  (Spec.capped_score
                     (m (s [inject_Z days; dist; if avail then 1%Q else 0%Q;
                            inject_Z (Z.of_nat (List.length flags))]))
                     (PyStr.mem "serious_condition" flags)))
               days dist avail flags
        \/ exists w2 w3,
             GeminiClient.generate_xai_reasons_with_gemini
               (Spec.capped_score
                  (m (s [inject_Z days; dist; if avail then 1%Q else 0%Q;
                         inject_Z (Z.of_nat (List.length flags))]))
                  (PyStr.mem "serious_condition" flags))
               days dist avail (health_count flags) w2
             = (inr (Some rs), w3)).
Proof.
  intros L Hm Hs.
  unfold compute_score_and_reasons.
  rewrite (bind_returns _ _ _ _ _ L).
  erewrite bind_returns by (apply scaler_transform_some; eassumption).
  erewrite bind_returns by (apply model_predict_some; eassumption).
  unfold _build_features, health_count at 1. cbn [map item0].
  erewrite bind_returns by reflexivity.
  set (p := m (s _)).
  rewrite (score_is_capped p). rewrite py_int_inject.
  set (z := Spec.capped_score p _).
  set (w2 := with_log _ w1).
  unfold bind at 1.
  destruct (xai_reasons_returns z days dist avail (health_count flags) w2)
    as (r & w3 & G).
  unfold try_except. rewrite (bind_returns _ _ _ _ _ G).
  destruct r as [[| r0 rs] |]; unfold ret; cbn.
  - eexists _, _. split; [reflexivity |]. split; [apply rule_based_reasons_nonempty | auto].
  - eexists _, _. split; [reflexivity |]. split; [discriminate |]. right. eauto.
  - eexists _, _. split; [reflexivity |]. split; [apply rule_based_reasons_nonempty | auto].
Qed.

Lemma compute_ready w days dist avail flags :
  Spec.model_ready w = true ->
  exists p rs w',
    compute_score_and_reasons days dist avail flags w
    = (inr (Spec.capped_score p (PyStr.mem "serious_condition" flags), rs), w')
    /\ rs <> []
    /\ (rs = rule_based_reasons
               (inject_Z (Spec.capped_score p (PyStr.mem "serious_condition" flags)))
               days dist avail flags
        \/ exists w1 w2,
             GeminiClient.generate_xai_reasons_with_gemini
               (Spec.capped_score p (PyStr.mem "serious_condition" flags))
               days dist avail (health_count flags) w1
             = (inr (Some rs), w2)).
Proof.
  intros R. destruct (load_model_ready w R) as (w1 & m & s & L & Hm & Hs).
  destruct (compute_after_load w w1 m s days dist avail flags L Hm Hs)
    as (rs & w' & H).
  eauto.
Qed.

Lemma compute_not_ready w days dist avail flags :
  Spec.model_ready w = false ->
  exists e w', compute_score_and_reasons days dist avail flags w = (inl e, w').
Proof.
  intros R. unfold compute_score_and_reasons.
  destruct (load_model_not_ready w R) as [(e & w1 & L) | (L & Hs)].
  - rewrite (bind_raises _ _ _ _ _ L). eauto.
  - rewrite (bind_returns _ _ _ _ _ L).
    unfold scaler_transform. unfold bind at 1. unfold bind at 1.
    unfold gets at 1. rewrite Hs. unfold raise. eauto.
Qed.

End Compute.

(** ** Strings and lists of strings *)

Section Strings.

Lemma mem_In (x : string) (l : list string) : PyStr.mem x l = true <-> In x l.
Proof.
  unfold PyStr.mem. rewrite existsb_exists. split.
  - intros (y & Hy & E). apply String.eqb_eq in E. now subst.
  - intros H. exists x. split; [assumption | apply String.eqb_refl].
Qed.

End Strings.

(** ** The score and the reasons of [compute_score_and_reasons] *)

Section Score.
Import Py EligibilityService.
Local Open Scope Z_scope.





End Score.

(** ** The rule-based label function *)

Section RuleBased.
Import PyNum.

Lemma round_half_even_mono (x y : Q) :
  (x <= y)%Q -> (round_half_even x <= round_half_even y)%Z.
Proof.
  intros H. unfold round_half_even.
  pose proof (Qfloor_resp_le _ _ H) as F.
  destruct (Z.eq_dec (Qfloor x) (Qfloor y)) as [E | N].
  - rewrite <- E.
    destruct (Qcompare_spec (x - inject_Z (Qfloor x)) (1 # 2)) as [A | A | A];
      destruct (Qcompare_spec (y - inject_Z (Qfloor x)) (1 # 2)) as [B | B | B];
      try destruct (Z.even (Qfloor x)); try lia; exfalso; lra.
  - destruct (Qcompare (x - inject_Z (Qfloor x)) (1 # 2));
      destruct (Qcompare (y - inject_Z (Qfloor y)) (1 # 2));
      try destruct (Z.even (Qfloor x)); try destruct (Z.even (Qfloor y)); lia.
Qed.

Lemma np_round_mono (x y : Q) : (x <= y)%Q -> (np_round x <= np_round y)%Q.
Proof.
  intros H. unfold np_round. rewrite <- Zle_Qle. now apply round_half_even_mono.
Qed.

Lemma np_clip_mono (x y lo hi : Q) :
  (x <= y)%Q -> (np_clip x lo hi <= np_clip y lo hi)%Q.
Proof.
  intros H. unfold np_clip.
  destruct (Qltb x lo) eqn:A; destruct (Qltb y lo) eqn:B;
    repeat match goal with
      | |- context [Qltb ?a ?b] => let E := fresh in destruct (Qltb a b) eqn:E
      end;
    repeat match goal with
      | E : Qltb _ _ = true |- _ => apply Qltb_true in E
      | E : Qltb _ _ = false |- _ => apply Qltb_false in E
      end; lra.
Qed.

(** C5.  The rule-based score never decreases when [days_since] grows,
    the other three arguments being fixed; in particular the score at 90
    days is at least the score at 89 days. *)
Theorem rule_based_score_monotone_in_days
  (d1 d2 : Z) (distance_km : Q) (is_available : bool) (health_flag_count : Z) :
  (d1 <= d2)%Z ->
  (TrainModel.rule_based_score d1 distance_km is_available health_flag_count
   <= TrainModel.rule_based_score d2 distance_km is_available health_flag_count)%Q
  /\ (TrainModel.rule_based_score 89 distance_km is_available health_flag_count
      <= TrainModel.rule_based_score 90 distance_km is_available health_flag_count)%Q.
Proof.
  assert (mono : forall a b, (a <= b)%Z ->
    (TrainModel.rule_based_score a distance_km is_available health_flag_count
     <= TrainModel.rule_based_score b distance_km is_available health_flag_count)%Q).
  { intros a b L. unfold TrainModel.rule_based_score.
    apply np_clip_mono, np_round_mono.
    rewrite !Z.geb_leb.
    destruct (Z.leb_spec 90 a); destruct (Z.leb_spec 90 b); try lia;
      destruct (Z.leb_spec 60 a); destruct (Z.leb_spec 60 b); try lia;
      destruct is_available; destruct (Qle_bool distance_km 5);
      destruct (Qle_bool distance_km 15); destruct (health_flag_count =? 0)%Z;
      lra. }
  intros L. split; [apply mono; assumption | apply mono; lia].
Qed.

(** C7.  The two copies of the label function, in [train_model.py] and in
    [train_from_csv.py], compute the same function. *)
Theorem rule_based_score_copies_agree
  (days_since : Z) (distance_km : Q) (is_available : bool) (health_flag_count : Z) :
  TrainModel.rule_based_score days_since distance_km is_available health_flag_count
  = TrainFromCsv.rule_based_score days_since distance_km is_available health_flag_count.
Proof. reflexivity. Qed.

End RuleBased.

(** ** Keyword extraction *)

Section Keywords.
Import Py NlpHealth.

Lemma prefix_app (s t : string) :
  prefix s t = true <-> exists b, t = s ++ b.
Proof.
  revert t. induction s as [| c s IH]; intros t.
  - split; [intros _; now exists t | intros _; now destruct t].
  - destruct t as [| d t]; simpl.
    + split; [discriminate | intros (b & E); discriminate].
    + destruct (ascii_dec c d) as [-> | N].
      * rewrite IH. split; intros (b & E); exists b; [now subst | now injection E].
      * split; [discriminate | intros (b & E); injection E; congruence].
Qed.

(** [needle in hay] holds exactly when [needle] occurs in [hay]. *)
Lemma contains_occurs (s t : string) :
  PyStr.contains s t = true <-> Spec.occurs_in s t.
Proof.
  unfold Spec.occurs_in. induction t as [| d t IH]; cbn [PyStr.contains].
  - rewrite orb_false_r, prefix_app. split.
    + intros (b & E). now exists "", b.
    + intros (a & b & E). destruct a; [now exists b | discriminate].
  - rewrite orb_true_iff, prefix_app, IH. split.
    + intros [(b & E) | (a & b & E)].
      * now exists "", b.
      * exists (String d a), b. simpl. now rewrite E.
    + intros (a & b & E). destruct a as [| c a]; simpl in E.
      * left. now exists b.
      * right. injection E as _ E. now exists a, b.
Qed.

Lemma occurs_in_empty (s : string) : Spec.occurs_in s "" -> s = "".
Proof.
  intros (a & b & E). destruct a; [| discriminate].
  destruct s; [reflexivity | discriminate].
Qed.

Lemma fromkeys_keeps (x : string) (l seen : list string) :
  In x l -> In x seen \/ In x (PyStr.fromkeys seen l).
Proof.
  revert seen. induction l as [| y l IH]; intros seen H; [contradiction |].
  simpl. destruct (PyStr.mem y seen) eqn:E.
  - destruct H as [-> | H]; [left; now apply mem_In | now apply IH].
  - destruct H as [-> | H]; [right; now left |].
    destruct (IH (y :: seen) H) as [[-> | S] | R]; [right; now left | now left |].
    right. now right.
Qed.

(** No term of the table normalizes to the empty string. *)
Lemma health_terms_nonempty (flag : string) (terms : list string) (term : string) :
  In (flag, terms) HEALTH_TERMS -> In term terms -> _normalize_word term <> "".
Proof.
  intros Hf Ht.
  assert (A : forallb (fun item : string * list string =>
                         forallb (fun t => PyStr.truthy (_normalize_word t)) (snd item))
                      HEALTH_TERMS = true) by (vm_compute; reflexivity).
  rewrite forallb_forall in A. specialize (A _ Hf). simpl in A.
  rewrite forallb_forall in A. specialize (A _ Ht).
  intros E. rewrite E in A. discriminate.
Qed.

Lemma matched_flags_In (tokens_set : list string) (text flag : string)
  (terms : list string) (term : string) :
  In (flag, terms) HEALTH_TERMS -> In term terms ->
  term_matches tokens_set text term = true ->
  In flag (matched_flags tokens_set text).
Proof.
  intros Hf Ht Hm. unfold matched_flags. apply in_flat_map.
  exists (flag, terms). split; [assumption |].
  replace (existsb (term_matches tokens_set text) terms) with true; [now left |].
  symmetry. apply existsb_exists. eauto.
Qed.

(** C6.  Keyword match implies flag presence: when the normalized text of
    the summary contains a normalized term of a flag as a substring, the
    NLTK extractor returns a list with that flag.  It raises only when the
    tokenizer of NLTK raises. *)
Theorem keyword_match_implies_flag
  (w : World) (flag : string) (terms : list string) (term summary : string) :
  In (flag, terms) HEALTH_TERMS ->
  In term terms ->
  Spec.occurs_in (_normalize_word term) (_normalize_word summary) ->
  match _normalize_health_to_flags_nltk summary w with
  | (inr flags, _) => In flag flags
  | (inl e, w') => _tokenize_and_lemmatize summary w = (inl e, w')
  end.
Proof.
  intros Hf Ht Ho. unfold _normalize_health_to_flags_nltk.
  destruct (_normalize_word summary) as [| c text] eqn:E.
  - apply occurs_in_empty in Ho. now apply (health_terms_nonempty flag terms term) in Ho.
  - cbn [PyStr.truthy negb]. unfold bind.
    destruct (_tokenize_and_lemmatize summary w) as [[e | toks] w1]; [reflexivity |].
    unfold ret.
    destruct (fromkeys_keeps flag
                (matched_flags (toks ++ phrases (PyStr.split (String c text)))
                   (String c text)) []) as [[] | H]; [| exact H].
    apply (matched_flags_In _ _ flag terms term Hf Ht).
    unfold term_matches. apply orb_true_iff. right. now apply contains_occurs.
Qed.

End Keywords.

(** ** Degenerate summaries *)

Section Degenerate.
Import Py NlpHealth.

Lemma collapse_run_blank (s : string) :
  PyStr.all_chars PyStr.isspace s = true -> PyStr.collapse_ws true s = "".
Proof.
  induction s as [| c s IH]; [reflexivity |].
  simpl. intros H. apply andb_true_iff in H as [Hc Hs].
  rewrite Hc. now apply IH.
Qed.

Lemma normalize_word_blank (s : string) :
  PyStr.all_chars PyStr.isspace s = true -> _normalize_word s = "".
Proof.
  destruct s as [| c s]; [reflexivity |].
  simpl. intros H. apply andb_true_iff in H as [Hc Hs].
  unfold _normalize_word, PyStr.re_sub_ws. simpl. rewrite Hc.
  now rewrite (collapse_run_blank s Hs).
Qed.

(** C10.  [normalize_health_to_flags] returns the empty list when the
    summary is [None], is not a string, is the empty string or holds only
    whitespace; the state of the service is left as it was: no call to the
    LLM or to NLTK is made. *)
Theorem normalize_degenerate_is_empty (w : World) (v : py_value) :
  Spec.degenerate v = true ->
  normalize_health_to_flags v w = (inr [], w).
Proof.
  destruct v as [| s | b]; try reflexivity.
  intros H. simpl in H. unfold normalize_health_to_flags.
  destruct (PyStr.truthy s); [| reflexivity].
  cbn [negb]. now rewrite (normalize_word_blank s H).
Qed.

End Degenerate.

(** ** What the LLM client leaves untouched *)

Section Frame.
Import Py GeminiClient.

Lemma ensure_gemini_frame w :
  exists b w1, _ensure_gemini w = (inr b, w1)
    /\ ext w1 = ext w /\ _model (glob w1) = _model (glob w)
    /\ _scaler (glob w1) = _scaler (glob w) /\ log w1 = log w.
Proof.
  unfold _ensure_gemini, bind, gets, modify, ret.
  destruct (_gemini_configured (glob w)); [eexists _, _; repeat split |].
  destruct (negb _); [eexists _, _; repeat split |].
  destruct (genai_configures (ext w)); eexists _, _; repeat split.
Qed.

Lemma generate_frame {A} k (reply : llm_reply A) w :
  exists r w1, generate k reply w = (r, w1)
    /\ ext w1 = ext w /\ _model (glob w1) = _model (glob w)
    /\ _scaler (glob w1) = _scaler (glob w)
    /\ log w1 = (log w ++ [EvLlm k])%list.
Proof.
  unfold generate, bind, emit, modify.
  destruct reply; eexists _, _; repeat split.
Qed.

Lemma full_context_frame summary days dist avail w :
  exists r w1,
    eligibility_score_from_full_context summary days dist avail w = (inr r, w1)
    /\ Spec.llm_only ForScore w w1.
Proof.
  unfold eligibility_score_from_full_context, Spec.llm_only.
  destruct (ensure_gemini_frame w) as (b & w0 & E & X & HM & HS & HL).
  rewrite (bind_returns _ _ _ _ _ E).
  destruct b; cbn [negb].
  2: { unfold ret. eexists _, _. split; [reflexivity |].
       rewrite X, HM, HS, HL. auto. }
  unfold try_except, bind at 1, gets at 1.
  match goal with
  | |- context [bind (generate ForScore ?reply) ?k w0] =>
      destruct (generate_frame ForScore reply w0)
        as (r & w1 & G & X1 & HM1 & HS1 & HL1);
      unfold bind at 1; rewrite G
  end.
  rewrite <- X, <- HM, <- HS, <- HL, <- X1, <- HM1, <- HS1.
  rewrite <- HL1.
  destruct r as [e | [d |]]; unfold ret.
  - eexists _, _. split; [reflexivity | auto].
  - destruct (js_score d); eexists _, _; (split; [reflexivity | auto]).
  - eexists _, _. split; [reflexivity | auto].
Qed.

End Frame.

(** ** The handlers *)

Section Handlers.
Import Py Main.

Lemma compute_missing_model w days dist avail flags :
  _model (glob w) = None ->
  eligibility_model_joblib (artifacts (ext w)) = Absent ->
  EligibilityService.compute_score_and_reasons days dist avail flags w
  = (inl FileNotFoundError, w).
Proof.
  intros Hm Hf.
  unfold EligibilityService.compute_score_and_reasons,
    EligibilityService._load_model, bind, gets.
  now rewrite Hm, Hf.
Qed.

Lemma predict_eligibility_except_status e w :
  predict_eligibility_except e w
  = (inr (HTTPException (Spec.expected_status e) e), w).
Proof. now destruct e. Qed.

(** The course of [/predict-eligibility]: the LLM step, then the model. *)
Lemma predict_eligibility_steps (w : World) (body : PredictEligibilityBody) :
  exists from_llm w1,
    (if PyStr.truthy (PyStr.strip (GeminiClient.or_empty (healthSummary body)))
     then GeminiClient.eligibility_score_from_full_context
            (PyStr.strip (GeminiClient.or_empty (healthSummary body)))
            (daysSinceLastDonation body) (distanceKm body) (isAvailableNow body)
     else ret None) w = (inr from_llm, w1)
    /\ Spec.llm_only ForScore w w1
    /\ predict_eligibility_try body w
       = match from_llm with
         | Some (score, reasons) => (inr (Returned (ScoreReasons score reasons)), w1)
         | None =>
             match EligibilityService.compute_score_and_reasons
                     (daysSinceLastDonation body) (distanceKm body)
                     (isAvailableNow body) (healthFlags body) w1 with
             | (inr (score, reasons), w2) =>
                 (inr (Returned (ScoreReasons score reasons)), w2)
             | (inl e, w2) => (inl e, w2)
             end
         end.
Proof.
  assert (S : exists from_llm w1,
    (if PyStr.truthy (PyStr.strip (GeminiClient.or_empty (healthSummary body)))
     then GeminiClient.eligibility_score_from_full_context
            (PyStr.strip (GeminiClient.or_empty (healthSummary body)))
            (daysSinceLastDonation body) (distanceKm body) (isAvailableNow body)
     else ret None) w = (inr from_llm, w1)
    /\ Spec.llm_only ForScore w w1).
  { destruct (PyStr.truthy _).
    - apply full_context_frame.
    - exists None, w. split; [reflexivity |]. unfold Spec.llm_only. auto. }
  destruct S as (from_llm & w1 & E & F).
  exists from_llm, w1. split; [exact E |]. split; [exact F |].
  unfold predict_eligibility_try.
  rewrite (bind_returns _ _ _ _ _ E).
  destruct from_llm as [[score reasons] |]; [reflexivity |].
  unfold bind.
  destruct (EligibilityService.compute_score_and_reasons _ _ _ _ w1)
    as [[e | [score reasons]] w2]; reflexivity.
Qed.

Lemma check_eligibility_returns_200 (w : World) (body : NormalizeHealthBody) :
  exists p w', check_eligibility_from_health body w = (inr (Returned p), w').
Proof.
  unfold check_eligibility_from_health, try_except,
    check_eligibility_from_health_try, check_eligibility_from_health_except, bind.
  destruct (GeminiClient.check_blood_donation_eligible _ w)
    as [[e | [[eligible reason] |]] w1]; unfold ret; eauto.
Qed.

(** C3, as amended.  [/predict-eligibility] translates an exception that
    leaves the body of its [try] to an HTTP status: [FileNotFoundError] to
    503, any other exception to 500; in particular a missing model file
    gives 503 unless the LLM scored the request.  [/normalize-health]
    translates every such exception to 500.  [/check-eligibility-from-health]
    translates none: it always answers with status 200. *)
Theorem error_translation (w : World) :
  (forall body,
     match predict_eligibility_try body w with
     | (inl e, w') =>
         predict_eligibility body w
         = (inr (HTTPException (Spec.expected_status e) e), w')
     | (inr r, w') => predict_eligibility body w = (inr r, w')
     end)
  /\ (forall body,
        _model (glob w) = None ->
        eligibility_model_joblib (artifacts (ext w)) = Absent ->
        exists r w',
          predict_eligibility body w = (inr r, w')
          /\ (r = HTTPException 503 FileNotFoundError
              \/ exists score reasons w1,
                   r = Returned (ScoreReasons score reasons)
                   /\ GeminiClient.eligibility_score_from_full_context
                        (PyStr.strip (GeminiClient.or_empty (healthSummary body)))
                        (daysSinceLastDonation body) (distanceKm body)
                        (isAvailableNow body) w
                      = (inr (Some (score, reasons)), w1)))
  /\ (forall body,
        match normalize_health_try body w with
        | (inl e, w') => normalize_health body w = (inr (HTTPException 500 e), w')
        | (inr r, w') => normalize_health body w = (inr r, w')
        end)
  /\ (forall body,
        exists r w',
          check_eligibility_from_health body w = (inr r, w') /\ status r = 200%Z).
Proof.
  repeat split.
  - intros body. unfold predict_eligibility, try_except.
    destruct (predict_eligibility_try body w) as [[e | r] w'];
      [apply predict_eligibility_except_status | reflexivity].
  - intros body Hm Hf.
    destruct (predict_eligibility_steps w body)
      as (from_llm & w1 & E & (X & HM & _) & T).
    unfold predict_eligibility, try_except. rewrite T.
    destruct from_llm as [[score reasons] |].
    + eexists _, _. split; [reflexivity |]. right.
      exists score, reasons, w1. split; [reflexivity |].
      destruct (PyStr.truthy _); [exact E | discriminate].
    + rewrite compute_missing_model by (rewrite ?X, ?HM; assumption).
      eexists _, _. split; [reflexivity | now left].
  - intros body. unfold normalize_health, try_except.
    destruct (normalize_health_try body w) as [[e | r] w']; reflexivity.
  - intros body.
    destruct (check_eligibility_returns_200 w body) as (p & w' & E).
    exists (Returned p), w'. split; [exact E | reflexivity].
Qed.

(** C3, as stated, fails: while [/check-eligibility-from-health] handles
    ["I have cancer"] the LLM call raises [RuntimeError]; the answer has
    status 200, not 500, and so has the answer of the [except] clause of
    that handler. *)
Lemma check_endpoint_hides_exception :
  llm_check (llm (ext Sample.llm_down)) "I have cancer" = LlmRaises RuntimeError
  /\ (exists w',
        check_eligibility_from_health {| text := "I have cancer" |} Sample.llm_down
        = (inr (Returned (Eligible true)), w')
        /\ log w' = [EvLlm ForCheck])
  /\ fst (check_eligibility_from_health_except RuntimeError Sample.llm_down)
     = inr (Returned (EligibleReason true None))
  /\ status (Returned (Eligible true)) <> Spec.expected_status RuntimeError
  /\ status (Returned (EligibleReason true None)) <> Spec.expected_status RuntimeError.
Proof.
  split; [reflexivity |].
  split; [eexists; split; reflexivity |].
  split; [reflexivity |].
  split; discriminate.
Qed.

(** A missing model file is answered with 503. *)
Lemma error_translation_witness :
  exists r w',
    predict_eligibility Sample.ideal_donor Sample.no_model = (inr r, w')
    /\ (r = HTTPException 503 FileNotFoundError
        \/ exists score reasons w1,
             r = Returned (ScoreReasons score reasons)
             /\ GeminiClient.eligibility_score_from_full_context
                  (PyStr.strip (GeminiClient.or_empty (healthSummary Sample.ideal_donor)))
                  (daysSinceLastDonation Sample.ideal_donor)
                  (distanceKm Sample.ideal_donor)
                  (isAvailableNow Sample.ideal_donor) Sample.no_model
                = (inr (Some (score, reasons)), w1)).
Proof.
  destruct (error_translation Sample.no_model) as (_ & H & _).
  apply (H Sample.ideal_donor); reflexivity.
Defined.



End Handlers.

(** ** Instances *)

Section Instances.
Import Py.
Local Open Scope Z_scope.


Lemma rule_based_score_monotone_witness :
  (TrainModel.rule_based_score 30 10 true 0
   <= TrainModel.rule_based_score 120 10 true 0)%Q
  /\ (TrainModel.rule_based_score 89 10 true 0
      <= TrainModel.rule_based_score 90 10 true 0)%Q.
Proof.
  apply (rule_based_score_monotone_in_days 30 120 10 true 0). lia.
Defined.

Lemma keyword_match_witness :
  match NlpHealth._normalize_health_to_flags_nltk "I have cancer" Sample.offline with
  | (inr flags, _) => In "serious_condition" flags
  | (inl e, w') =>
      NlpHealth._tokenize_and_lemmatize "I have cancer" Sample.offline = (inl e, w')
  end.
Proof.
  eapply (keyword_match_implies_flag Sample.offline "serious_condition" _ "cancer").
  - do 5 right. left. reflexivity.
  - left. reflexivity.
  - exists "i have ", "". reflexivity.
Defined.

Lemma normalize_degenerate_witness :
  Spec.degenerate (NlpHealth.PyStr "   ") = true
  /\ NlpHealth.normalize_health_to_flags (NlpHealth.PyStr "   ") Sample.online
     = (inr [], Sample.online).
Proof.
  split.
  - reflexivity.
  - apply normalize_degenerate_is_empty. reflexivity.
Defined.




(** Runs of the handlers in the sample worlds. *)

Example ideal_donor_offline :
  fst (Main.predict_eligibility Sample.ideal_donor Sample.offline)
  = inr (Main.Returned
           (Main.ScoreReasons 86
              ["Eligible by donation gap (90+ days)";
               "Proximity match – within 5 km";
               "Marked available now";
               "High suitability score"])).
Proof. reflexivity. Qed.

Example missing_model_is_503 :
  fst (Main.predict_eligibility Sample.ideal_donor Sample.no_model)
  = inr (Main.HTTPException 503 FileNotFoundError).
Proof. reflexivity. Qed.

Example unreadable_model_is_500 :
  fst (Main.predict_eligibility Sample.ideal_donor
         (Sample.world
            {| eligibility_model_joblib := Unreadable;
               eligibility_scaler_joblib := Absent;
               feature_names_joblib := Absent |} None Sample.failing_llm))
  = inr (Main.HTTPException 500 UnpicklingError).
Proof. reflexivity. Qed.

Example llm_down_falls_back_to_keywords :
  fst (Main.normalize_health {| Main.text := "I am diabetic and had fever last week" |}
         Sample.llm_down)
  = inr (Main.Returned (Main.FlagList ["recent_illness"; "diabetes"])).
Proof. reflexivity. Qed.

Example rule_based_score_values :
  map (fun d => TrainModel.rule_based_score d 10 true 0) [0; 59; 60; 89; 90; 400]
  = [75; 75; 85; 85; 100; 100]%Q.
Proof. reflexivity. Qed.

Example round_half_even_values :
  map PyNum.round_half_even [1 # 2; 3 # 2; 5 # 2; -1 # 2; -3 # 2; 7 # 4; -7 # 4]%Q
  = [0; 2; 2; 0; -2; 2; -2].
Proof. reflexivity. Qed.

Example normalize_word_value :
  NlpHealth._normalize_word "  High   Blood
  Pressure " = "high blood pressure".
Proof. reflexivity. Qed.

End Instances.

(* ================================================================= *)
(** * More properties *)
Section StringTheory.

Lemma str_app_assoc (a b c : string) : (a ++ b) ++ c = a ++ b ++ c.
Proof. induction a as [| x a IH]; simpl; [reflexivity | now rewrite IH]. Qed.

Lemma str_app_empty_r (a : string) : a ++ "" = a.
Proof. induction a as [| x a IH]; simpl; [reflexivity | now rewrite IH]. Qed.

Lemma string_of_list_app (a b : list ascii) :
  string_of_list_ascii (a ++ b)
  = string_of_list_ascii a ++ string_of_list_ascii b.
Proof. induction a as [| x a IH]; simpl; [reflexivity | now rewrite IH]. Qed.

Lemma rstrip_cons_nonspace (c : ascii) (x : string) :
  PyStr.isspace c = false -> PyStr.rstrip (String c x) <> "".
Proof.
  intros H. simpl. destruct (PyStr.rstrip x); [rewrite H |]; discriminate.
Qed.

Lemma rstrip_cons_keep (c : ascii) (x : string) :
  PyStr.rstrip x <> "" -> PyStr.rstrip (String c x) = String c (PyStr.rstrip x).
Proof.
  intros H. simpl. destruct (PyStr.rstrip x); [contradiction | reflexivity].
Qed.

Lemma rstrip_app_keep (p x : string) :
  PyStr.rstrip x <> "" -> PyStr.rstrip (p ++ x) = p ++ PyStr.rstrip x.
Proof.
  intros H. induction p as [| c p IH]; simpl; [reflexivity |].
  rewrite IH. destruct (p ++ PyStr.rstrip x) eqn:E; [| reflexivity].
  destruct p; simpl in E; [contradiction | discriminate].
Qed.

Lemma rstrip_app_drop (p x : string) :
  PyStr.rstrip x = "" -> PyStr.rstrip (p ++ x) = PyStr.rstrip p.
Proof.
  intros H. induction p as [| c p IH]; simpl; [assumption | now rewrite IH].
Qed.

(** The word under construction, in reading order. *)
Lemma word_snoc (c : ascii) (cur : list ascii) :
  string_of_list_ascii (rev (c :: cur))
  = string_of_list_ascii (rev cur) ++ String c "".
Proof. simpl. now rewrite string_of_list_app. Qed.

Lemma word_tight (c : ascii) (cur : list ascii) :
  PyStr.isspace c = false ->
  PyStr.rstrip (string_of_list_ascii (rev (c :: cur)))
  = string_of_list_ascii (rev (c :: cur)).
Proof.
  intros H. rewrite word_snoc. rewrite rstrip_app_keep; simpl; now rewrite H.
Qed.

Lemma join_cons (p : string) (l : list string) :
  l <> [] -> PyStr.join " " (p :: l) = p ++ " " ++ PyStr.join " " l.
Proof. destruct l; [contradiction | reflexivity]. Qed.

Lemma collapse_split_step (s : string) :
  (forall c cur,
     PyStr.isspace c = false ->
     PyStr.rstrip (string_of_list_ascii (rev (c :: cur)) ++ PyStr.collapse_ws false s)
     = PyStr.join " " (PyStr.split_ws (c :: cur) s))
  /\ (forall p,
        PyStr.rstrip p = p ->
        PyStr.rstrip (p ++ String " " (PyStr.collapse_ws true s))
        = PyStr.join " " (p :: PyStr.split s)).
Proof.
  induction s as [| d s [IHA IHB]].
  - split.
    + intros c cur H. cbn [PyStr.collapse_ws PyStr.split_ws].
      rewrite str_app_empty_r. now apply word_tight.
    + intros p H. cbn [PyStr.collapse_ws]. rewrite rstrip_app_drop; [exact H | reflexivity].
  - split.
    + intros c cur H. cbn [PyStr.collapse_ws PyStr.split_ws].
      destruct (PyStr.isspace d) eqn:D.
      * apply IHB. now apply word_tight.
      * rewrite <- (IHA d (c :: cur) D). rewrite (word_snoc d).
        now rewrite str_app_assoc.
    + intros p H. unfold PyStr.split. cbn [PyStr.collapse_ws PyStr.split_ws].
      destruct (PyStr.isspace d) eqn:D.
      * now apply IHB.
      * specialize (IHA d [] D). cbn [rev app string_of_list_ascii] in IHA.
        simpl append in IHA.
        assert (N : PyStr.rstrip (String d (PyStr.collapse_ws false s)) <> "")
          by now apply rstrip_cons_nonspace.
        pose proof (rstrip_cons_keep " " _ N) as R.
        rewrite rstrip_app_keep by (rewrite R; discriminate).
        rewrite R, IHA. rewrite join_cons; [reflexivity |].
        intros E. rewrite E in IHA. now apply N.
Qed.

(** [re.sub(r"\s+", " ", s).strip()] is [" ".join(s.split())]. *)
Lemma strip_collapse_is_join_split (s : string) :
  PyStr.strip (PyStr.re_sub_ws s) = PyStr.join " " (PyStr.split s).
Proof.
  unfold PyStr.strip, PyStr.re_sub_ws.
  enough (H : forall b, PyStr.rstrip (PyStr.lstrip (PyStr.collapse_ws b s))
                        = PyStr.join " " (PyStr.split s)) by apply H.
  induction s as [| d s IH]; intros b; [now destruct b |].
  unfold PyStr.split. cbn [PyStr.collapse_ws PyStr.split_ws].
  destruct (PyStr.isspace d) eqn:D.
  - destruct b; [apply IH |]. cbn [PyStr.lstrip]. change (PyStr.isspace " ") with true.
    cbv iota. apply IH.
  - cbn [PyStr.lstrip]. rewrite D.
    exact (proj1 (collapse_split_step s) d [] D).
Qed.

End StringTheory.

Section WordTheory.

Lemma ascii_all (P : ascii -> bool) :
  forallb P (map ascii_of_nat (seq 0 256)) = true -> forall c, P c = true.
Proof.
  intros H c. rewrite forallb_forall in H. apply H.
  rewrite <- (ascii_nat_embedding c). apply in_map. apply in_seq.
  pose proof (nat_ascii_bounded c). lia.
Qed.

Lemma lower_char_isspace (c : ascii) :
  PyStr.isspace (PyStr.lower_char c) = PyStr.isspace c.
Proof.
  apply (fun H => proj1 (Bool.eqb_true_iff _ _)
                    (ascii_all (fun c => Bool.eqb (PyStr.isspace (PyStr.lower_char c))
                                           (PyStr.isspace c)) H c)).
  vm_compute. reflexivity.
Qed.

Lemma lower_char_idempotent (c : ascii) :
  PyStr.lower_char (PyStr.lower_char c) = PyStr.lower_char c.
Proof.
  apply (fun H => proj1 (Ascii.eqb_eq _ _)
                    (ascii_all (fun c => Ascii.eqb (PyStr.lower_char (PyStr.lower_char c))
                                           (PyStr.lower_char c)) H c)).
  vm_compute. reflexivity.
Qed.

Lemma lower_app (a b : string) :
  PyStr.lower (a ++ b) = PyStr.lower a ++ PyStr.lower b.
Proof. induction a as [| c a IH]; simpl; [reflexivity | now rewrite IH]. Qed.

Lemma lower_idempotent (s : string) : PyStr.lower (PyStr.lower s) = PyStr.lower s.
Proof.
  induction s as [| c s IH]; simpl; [reflexivity |].
  now rewrite lower_char_idempotent, IH.
Qed.

Lemma lower_join (ws : list string) :
  PyStr.lower (PyStr.join " " ws) = PyStr.join " " (map PyStr.lower ws).
Proof.
  induction ws as [| w ws IH]; [reflexivity |].
  destruct ws as [| w' ws]; [reflexivity |].
  change (PyStr.join " " (w :: w' :: ws)) with (w ++ " " ++ PyStr.join " " (w' :: ws)).
  change (PyStr.join " " (map PyStr.lower (w :: w' :: ws)))
    with (PyStr.lower w ++ " " ++ PyStr.join " " (map PyStr.lower (w' :: ws))).
  rewrite !lower_app, IH. reflexivity.
Qed.

Lemma is_word_lower (w : string) :
  Words.is_word w = true -> Words.is_word (PyStr.lower w) = true.
Proof.
  unfold Words.is_word. rewrite !andb_true_iff. intros [T A]. split.
  - destruct w; [discriminate | reflexivity].
  - clear T. induction w as [| c w IH]; [reflexivity |].
    simpl in *. apply andb_true_iff in A as [Ac Aw].
    now rewrite lower_char_isspace, Ac, IH.
Qed.

(** Reading a word extends the word under construction. *)
Lemma split_ws_word (w s : string) (cur : list ascii) :
  PyStr.all_chars (fun c => negb (PyStr.isspace c)) w = true ->
  PyStr.split_ws cur (w ++ s)
  = PyStr.split_ws (rev (list_ascii_of_string w) ++ cur) s.
Proof.
  revert cur. induction w as [| c w IH]; intros cur A; [reflexivity |].
  simpl in A. apply andb_true_iff in A as [Ac Aw]. apply negb_true_iff in Ac.
  cbn [append PyStr.split_ws list_ascii_of_string rev]. rewrite Ac.
  rewrite (IH (c :: cur) Aw). now rewrite <- app_assoc.
Qed.

Lemma split_word_then (w s : string) :
  Words.is_word w = true ->
  PyStr.split (w ++ String " " s) = w :: PyStr.split s.
Proof.
  unfold Words.is_word, PyStr.split. intros H. apply andb_true_iff in H as [T A].
  rewrite (split_ws_word w _ [] A). rewrite app_nil_r.
  cbn [PyStr.split_ws]. change (PyStr.isspace " ") with true. cbv iota.
  destruct (rev (list_ascii_of_string w)) as [| x l] eqn:E.
  - apply (f_equal (@rev ascii)) in E. rewrite rev_involutive in E.
    destruct w; [discriminate | discriminate].
  - rewrite <- E, rev_involutive, string_of_list_ascii_of_string. reflexivity.
Qed.

Lemma split_word (w : string) :
  Words.is_word w = true -> PyStr.split w = [w].
Proof.
  unfold Words.is_word, PyStr.split. intros H. apply andb_true_iff in H as [T A].
  rewrite <- (str_app_empty_r w) at 1.
  rewrite (split_ws_word w _ [] A). rewrite app_nil_r.
  cbn [PyStr.split_ws].
  destruct (rev (list_ascii_of_string w)) as [| x l] eqn:E.
  - apply (f_equal (@rev ascii)) in E. rewrite rev_involutive in E.
    destruct w; [discriminate | discriminate].
  - rewrite <- E, rev_involutive, string_of_list_ascii_of_string. reflexivity.
Qed.

Lemma split_join_words (ws : list string) :
  forallb Words.is_word ws = true ->
  PyStr.split (PyStr.join " " ws) = ws.
Proof.
  induction ws as [| w ws IH]; [reflexivity |].
  intros H. simpl in H. apply andb_true_iff in H as [Hw Hws].
  destruct ws as [| w' ws]; [now apply split_word |].
  change (PyStr.join " " (w :: w' :: ws))
    with (w ++ String " " (PyStr.join " " (w' :: ws))).
  rewrite (split_word_then w _ Hw). now rewrite (IH Hws).
Qed.

Lemma split_ws_words (s : string) (cur : list ascii) :
  forallb (fun c => negb (PyStr.isspace c)) cur = true ->
  forallb Words.is_word (PyStr.split_ws cur s) = true.
Proof.
  assert (W : forall cur, cur <> [] ->
            forallb (fun c => negb (PyStr.isspace c)) cur = true ->
            Words.is_word (string_of_list_ascii (rev cur)) = true).
  { intros l N A. unfold Words.is_word. apply andb_true_iff. split.
    - destruct l as [| x l]; [contradiction |]. simpl.
      rewrite string_of_list_app. destruct (string_of_list_ascii (rev l)); reflexivity.
    - assert (G : forall l', forallb (fun c => negb (PyStr.isspace c)) l' = true ->
                PyStr.all_chars (fun c => negb (PyStr.isspace c))
                  (string_of_list_ascii l') = true).
      { induction l' as [| y l' IH]; [reflexivity |]. simpl.
        intros B. apply andb_true_iff in B as [B1 B2]. now rewrite B1, IH. }
      apply G. rewrite forallb_forall in *. intros y Hy. apply A.
      now apply in_rev. }
  revert cur. induction s as [| d s IH]; intros cur A.
  - cbn [PyStr.split_ws]. destruct cur as [| x l]; [reflexivity |].
    cbn [forallb]. rewrite W; [reflexivity | discriminate | exact A].
  - cbn [PyStr.split_ws]. destruct (PyStr.isspace d) eqn:D.
    + destruct cur as [| x l]; [now apply IH |].
      cbn [forallb]. rewrite W; [| discriminate | exact A].
      now apply IH.
    + apply IH. simpl. now rewrite D.
Qed.

Lemma split_words (s : string) : forallb Words.is_word (PyStr.split s) = true.
Proof. now apply split_ws_words. Qed.

End WordTheory.

Section NormalizeWord.
Import NlpHealth.

(** [_normalize_word] in terms of [split] and [join]. *)
Lemma normalize_word_is_join_words_aux (s : string) :
  _normalize_word s = PyStr.join " " (map PyStr.lower (PyStr.split s))
  /\ PyStr.split (_normalize_word s) = map PyStr.lower (PyStr.split s).
Proof.
  assert (E : _normalize_word s = PyStr.join " " (map PyStr.lower (PyStr.split s))).
  { unfold _normalize_word. now rewrite strip_collapse_is_join_split, lower_join. }
  split; [exact E |]. rewrite E. apply split_join_words.
  pose proof (split_words s) as W. rewrite forallb_forall in *.
  intros w Hw. apply in_map_iff in Hw as (v & <- & Hv).
  apply is_word_lower. now apply W.
Qed.

(** X1.  [_normalize_word] joins the lower-cased words of the text with
    single spaces: it is [" ".join(w.lower() for w in s.split())], and
    these are the words [split] finds in the result. *)
Theorem normalize_word_is_join_of_words (s : string) :
  _normalize_word s = PyStr.join " " (map PyStr.lower (PyStr.split s))
  /\ PyStr.split (_normalize_word s) = map PyStr.lower (PyStr.split s).
Proof. apply normalize_word_is_join_words_aux. Qed.

(** X2.  [_normalize_word] is idempotent. *)
Theorem normalize_word_idempotent (s : string) :
  _normalize_word (_normalize_word s) = _normalize_word s.
Proof.
  destruct (normalize_word_is_join_words_aux s) as [E S].
  destruct (normalize_word_is_join_words_aux (_normalize_word s)) as [E' _].
  rewrite E', S, E. rewrite map_map.
  f_equal. apply map_ext. intros w. apply lower_idempotent.
Qed.

End NormalizeWord.

Section Phrases.
Import Py NlpHealth.

Lemma join_app (a b : list string) :
  a <> [] -> b <> [] ->
  PyStr.join " " (a ++ b) = PyStr.join " " a ++ " " ++ PyStr.join " " b.
Proof.
  intros Ha Hb. induction a as [| x a IH]; [contradiction |].
  destruct a as [| y a].
  - destruct b; [contradiction | reflexivity].
  - specialize (IH ltac:(discriminate)).
    change (PyStr.join " " ((x :: y :: a) ++ b))
      with (x ++ " " ++ PyStr.join " " ((y :: a) ++ b)).
    rewrite IH.
    change (PyStr.join " " (x :: y :: a)) with (x ++ " " ++ PyStr.join " " (y :: a)).
    now rewrite !str_app_assoc.
Qed.

Lemma join_middle_occurs (a b c : list string) :
  Spec.occurs_in (PyStr.join " " b) (PyStr.join " " (a ++ b ++ c)).
Proof.
  unfold Spec.occurs_in.
  destruct b as [| b0 b]; [exists "", (PyStr.join " " (a ++ c)); reflexivity |].
  destruct a as [| a0 a]; destruct c as [| c0 c].
  - exists "", "". rewrite app_nil_l, app_nil_r. cbn [append].
    now rewrite str_app_empty_r.
  - exists "", (" " ++ PyStr.join " " (c0 :: c)). rewrite app_nil_l.
    now rewrite join_app by discriminate.
  - exists (PyStr.join " " (a0 :: a) ++ " "), "".
    rewrite app_nil_r, join_app by discriminate.
    now rewrite str_app_empty_r, str_app_assoc.
  - exists (PyStr.join " " (a0 :: a) ++ " "), (" " ++ PyStr.join " " (c0 :: c)).
    rewrite join_app by discriminate.
    rewrite (join_app (b0 :: b)) by discriminate.
    now rewrite !str_app_assoc.
Qed.

Lemma phrase_occurs (ws : list string) (ph : string) :
  In ph (phrases ws) -> Spec.occurs_in ph (PyStr.join " " ws).
Proof.
  unfold phrases. intros H.
  apply in_flat_map in H as (i & _ & H).
  apply in_flat_map in H as (n & _ & H).
  destruct (i + n <=? List.length ws)%nat; [| contradiction].
  destruct H as [<- | []]. unfold PyStr.slice.
  rewrite <- (firstn_skipn i ws) at 2.
  rewrite <- (firstn_skipn n (skipn i ws)) at 2.
  apply join_middle_occurs.
Qed.

(** On a normalized text the phrases of two and three words are
    substrings of the text, so they never change a match. *)
Lemma term_matches_without_phrases (s : string) (toks : list string) (term : string) :
  term_matches (toks ++ phrases (PyStr.split (_normalize_word s)))
    (_normalize_word s) term
  = term_matches toks (_normalize_word s) term.
Proof.
  unfold term_matches, PyStr.mem. rewrite existsb_app.
  destruct (existsb _ toks); [reflexivity |]. cbn [orb].
  destruct (existsb _ (phrases _)) eqn:E; [| reflexivity].
  apply existsb_exists in E as (ph & Hph & Eq). apply String.eqb_eq in Eq. subst ph.
  apply phrase_occurs in Hph.
  destruct (normalize_word_is_join_words_aux s) as [E1 E2].
  rewrite E2, <- E1 in Hph. apply contains_occurs in Hph. now rewrite Hph.
Qed.

Lemma matched_flags_without_phrases (s : string) (toks : list string) :
  matched_flags (toks ++ phrases (PyStr.split (_normalize_word s)))
    (_normalize_word s)
  = matched_flags toks (_normalize_word s).
Proof.
  unfold matched_flags. apply flat_map_ext. intros [flag terms].
  replace (existsb (term_matches (toks ++ phrases (PyStr.split (_normalize_word s)))
                      (_normalize_word s)) terms)
    with (existsb (term_matches toks (_normalize_word s)) terms); [reflexivity |].
  induction terms as [| t terms IH]; [reflexivity |].
  simpl. now rewrite IH, term_matches_without_phrases.
Qed.

Lemma matched_flags_is_filter (toks : list string) (text : string) :
  matched_flags toks text
  = map fst (filter (fun item : string * list string =>
                       existsb (term_matches toks text) (snd item))
               HEALTH_TERMS).
Proof.
  unfold matched_flags. induction HEALTH_TERMS as [| [flag terms] l IH]; [reflexivity |].
  simpl. destruct (existsb _ terms); simpl; now rewrite IH.
Qed.

Lemma fromkeys_fresh (l seen : list string) :
  NoDup l -> (forall x, In x l -> ~ In x seen) -> PyStr.fromkeys seen l = l.
Proof.
  revert seen. induction l as [| x l IH]; intros seen N F; [reflexivity |].
  simpl. inversion N as [| ? ? Nx Nl]; subst.
  destruct (PyStr.mem x seen) eqn:E.
  - apply mem_In in E. exfalso. apply (F x); [now left | assumption].
  - f_equal. apply IH; [assumption |].
    intros y Hy [-> | Hs]; [contradiction |]. apply (F y); [now right | assumption].
Qed.

(** Selecting items of a table keeps its keys distinct. *)
Lemma selected_keys_distinct
  (sel : string * list string -> bool) (items : list (string * list string)) :
  NoDup (map fst items) -> NoDup (map fst (filter sel items)).
Proof.
  intros N. induction items as [| item items IH]; [constructor |].
  cbn [map] in N. inversion N as [| ? ? Fresh Rest]; subst.
  cbn [filter]. destruct (sel item); [| now apply IH].
  cbn [map]. constructor; [| now apply IH].
  intros H. apply Fresh. apply in_map_iff in H as (other & E & Ho).
  apply filter_In in Ho as [Ho _]. apply in_map_iff. eauto.
Qed.

Lemma health_terms_keys_nodup : NoDup (map fst HEALTH_TERMS).
Proof.
  repeat (constructor; [simpl; intuition discriminate |]). constructor.
Qed.

End Phrases.

Section NltkFlags.
Import Py NlpHealth.

(** The statement of [nltk_flags_exact], for the proofs that use it. *)
Lemma nltk_flags_exact_aux (w : World) (s : string) :
  _normalize_health_to_flags_nltk s w
  = if PyStr.truthy (_normalize_word s)
    then match _tokenize_and_lemmatize s w with
         | (inr toks, w1) =>
             (inr (map fst
                     (filter (fun item : string * list string =>
                                existsb (term_matches toks (_normalize_word s))
                                        (snd item))
                        HEALTH_TERMS)), w1)
         | (inl e, w1) => (inl e, w1)
         end
    else (inr [], w).
Proof.
  unfold _normalize_health_to_flags_nltk.
  destruct (PyStr.truthy (_normalize_word s)); [| reflexivity].
  cbn [negb]. unfold bind.
  destruct (_tokenize_and_lemmatize s w) as [[e | toks] w1]; [reflexivity |].
  unfold ret. rewrite matched_flags_without_phrases, matched_flags_is_filter.
  rewrite fromkeys_fresh; [reflexivity | | intros x _ []].
  apply selected_keys_distinct, health_terms_keys_nodup.
Qed.

(** X3.  What the NLTK extractor returns: nothing for a blank text;
    otherwise, for the tokens and lemmas [toks] of the tokenizer, the flags
    of [HEALTH_TERMS], in the order of the table, that have a term equal
    to a token or occurring in the normalized text.  The phrases of two
    and three words and the final removal of duplicates change nothing. *)
Theorem nltk_flags_exact (w : World) (s : string) :
  _normalize_health_to_flags_nltk s w
  = if PyStr.truthy (_normalize_word s)
    then match _tokenize_and_lemmatize s w with
         | (inr toks, w1) =>
             (inr (map fst
                     (filter (fun item : string * list string =>
                                existsb (term_matches toks (_normalize_word s))
                                        (snd item))
                        HEALTH_TERMS)), w1)
         | (inl e, w1) => (inl e, w1)
         end
    else (inr [], w).
Proof. exact (nltk_flags_exact_aux w s). Qed.

(** X4.  When the tokenizer returns [toks] for a text that is not blank,
    the extractor returns a list without duplicates in which a flag occurs
    exactly when one of its terms, normalized, is among [toks] or occurs in
    the normalized text. *)
Theorem nltk_flag_iff_term_matches
  (w w1 : World) (s : string) (toks : list string) :
  PyStr.truthy (_normalize_word s) = true ->
  _tokenize_and_lemmatize s w = (inr toks, w1) ->
  exists flags,
    _normalize_health_to_flags_nltk s w = (inr flags, w1)
    /\ NoDup flags
    /\ forall flag,
         In flag flags
         <-> exists terms term,
               In (flag, terms) HEALTH_TERMS /\ In term terms
               /\ (In (_normalize_word term) toks
                   \/ Spec.occurs_in (_normalize_word term) (_normalize_word s)).
Proof.
  intros T E. rewrite nltk_flags_exact_aux, T, E.
  eexists. split; [reflexivity |]. split.
  - apply selected_keys_distinct, health_terms_keys_nodup.
  - intros flag. rewrite in_map_iff. split.
    + intros ([f terms] & <- & H). apply filter_In in H as [H M].
      apply existsb_exists in M as (term & Ht & M).
      exists terms, term. repeat split; try assumption.
      unfold term_matches in M. apply orb_true_iff in M as [M | M].
      * left. now apply mem_In.
      * right. now apply contains_occurs.
    + intros (terms & term & Hf & Ht & M).
      exists (flag, terms). split; [reflexivity |].
      apply filter_In. split; [assumption |].
      apply existsb_exists. exists term. split; [assumption |].
      unfold term_matches. apply orb_true_iff.
      destruct M as [M | M]; [left; now apply mem_In | right; now apply contains_occurs].
Qed.

End NltkFlags.

Section GeminiState.
Import Py GeminiClient.

Lemma ensure_gemini_exact (w : World) :
  _ensure_gemini w = (inr (State.gemini_enabled w), State.gemini_settled w).
Proof.
  unfold _ensure_gemini, State.gemini_enabled, State.gemini_settled,
    State.gemini_enabled, bind, gets, modify, ret.
  destruct (_gemini_configured (glob w)); [reflexivity |].
  destruct (PyStr.truthy _); cbn [negb andb]; [| reflexivity].
  destruct (genai_configures (ext w)); reflexivity.
Qed.

Lemma gemini_settled_frame (w : World) :
  ext (State.gemini_settled w) = ext w
  /\ log (State.gemini_settled w) = log w
  /\ nltk_data (State.gemini_settled w) = nltk_data w
  /\ _model (glob (State.gemini_settled w)) = _model (glob w)
  /\ _scaler (glob (State.gemini_settled w)) = _scaler (glob w)
  /\ _nltk_ready (glob (State.gemini_settled w)) = _nltk_ready (glob w)
  /\ _gemini_configured (glob (State.gemini_settled w)) = true
  /\ State.gemini_enabled (State.gemini_settled w) = State.gemini_enabled w.
Proof.
  unfold State.gemini_settled, State.gemini_enabled.
  destruct (_gemini_configured (glob w)) eqn:C; cbn; rewrite ?C; repeat split.
  now rewrite negb_involutive.
Qed.

(** X5.  [_ensure_gemini] decides once: after a call that answered [b],
    every later call answers [b] and changes nothing, whatever the API key
    and the library are by then. *)
Theorem ensure_gemini_decides_once (w w1 w2 : World) (b : bool) :
  _ensure_gemini w = (inr b, w1) ->
  glob w2 = glob w1 ->
  _ensure_gemini w2 = (inr b, w2).
Proof.
  rewrite ensure_gemini_exact. intros E G. injection E as <- <-.
  rewrite ensure_gemini_exact.
  destruct (gemini_settled_frame w) as (_ & _ & _ & _ & _ & _ & C & H).
  unfold State.gemini_enabled in H at 1. rewrite C in H.
  unfold State.gemini_enabled at 1, State.gemini_settled at 1.
  now rewrite G, C, H.
Qed.

End GeminiState.

Section GeminiAnswers.
Import Py GeminiClient.
Local Open Scope Z_scope.

Lemma clean_reasons_length (l : list string) :
  (List.length (clean_reasons l) <= 6)%nat.
Proof. unfold clean_reasons. apply firstn_le_length. Qed.

(** The statement of [full_context_answer_bounds], for the proofs that use it. *)
Lemma full_context_answer_bounds_aux
  (w : World) (summary : string) (days : Z) (dist : Q) (avail : bool) :
  match eligibility_score_from_full_context summary days dist avail w with
  | (inr (Some (score, reasons)), _) =>
      0 <= score <= 100 /\ (1 <= List.length reasons <= 6)%nat
  | (inr None, _) => True
  | (inl _, _) => False
  end.
Proof.
  unfold eligibility_score_from_full_context.
  rewrite (bind_returns _ _ _ _ _ (ensure_gemini_exact w)).
  destruct (State.gemini_enabled w); cbn [negb ret]; [| exact I].
  unfold try_except, bind, gets, generate, emit, modify.
  destruct (llm_full_context _ _ _ _ _) as [e | | j];
    cbn -[Z.max Z.min clean_reasons str_of_int PyNum.round_half_even append];
    try exact I.
  destruct (js_score j) as [v |];
    cbn -[Z.max Z.min clean_reasons str_of_int PyNum.round_half_even append];
    [| exact I].
  split; [lia |].
  pose proof (clean_reasons_length (js_reasons j)).
  destruct (clean_reasons (js_reasons j)); cbn [List.length] in *; lia.
Qed.

(** X6.  [eligibility_score_from_full_context] never raises, and an
    answer it gives has a score within 0..100 and between one and six
    reasons. *)
Theorem full_context_answer_bounds
  (w : World) (summary : string) (days : Z) (dist : Q) (avail : bool) :
  match eligibility_score_from_full_context summary days dist avail w with
  | (inr (Some (score, reasons)), _) =>
      0 <= score <= 100 /\ (1 <= List.length reasons <= 6)%nat
  | (inr None, _) => True
  | (inl _, _) => False
  end.
Proof. exact (full_context_answer_bounds_aux w summary days dist avail). Qed.

End GeminiAnswers.

Section GeminiOff.
Import Py GeminiClient.

Lemma strip_truthy (s : string) :
  PyStr.truthy (PyStr.strip s) = true -> PyStr.truthy s = true.
Proof. destruct s; [discriminate | reflexivity]. Qed.

(** The statement of [gemini_off_never_calls], for the proofs that use it. *)
Lemma gemini_off_never_calls_aux
  (w : World) (summary : string) (score days : Z) (dist : Q) (avail : bool)
  (count : Z) :
  State.gemini_enabled w = false ->
  PyStr.truthy (PyStr.strip summary) = true ->
  eligibility_score_from_full_context summary days dist avail w
  = (inr None, State.gemini_settled w)
  /\ generate_xai_reasons_with_gemini score days dist avail count w
     = (inr None, State.gemini_settled w)
  /\ generate_health_flags_with_gemini summary w
     = (inr None, State.gemini_settled w)
  /\ check_blood_donation_eligible summary w
     = (inr None, State.gemini_settled w)
  /\ log (State.gemini_settled w) = log w.
Proof.
  intros Off T. pose proof (strip_truthy _ T) as T'.
  unfold eligibility_score_from_full_context, generate_xai_reasons_with_gemini,
    generate_health_flags_with_gemini, check_blood_donation_eligible.
  rewrite T, T'. cbn [negb orb].
  rewrite !(bind_returns _ _ _ _ _ (ensure_gemini_exact w)), Off.
  repeat split. apply gemini_settled_frame.
Qed.

(** X7.  When the LLM is switched off (no usable API key, or an earlier
    call decided so), no function of the client calls it: each returns
    [None] and the log of external calls is left as it was. *)
Theorem gemini_off_never_calls
  (w : World) (summary : string) (score days : Z) (dist : Q) (avail : bool)
  (count : Z) :
  State.gemini_enabled w = false ->
  PyStr.truthy (PyStr.strip summary) = true ->
  eligibility_score_from_full_context summary days dist avail w
  = (inr None, State.gemini_settled w)
  /\ generate_xai_reasons_with_gemini score days dist avail count w
     = (inr None, State.gemini_settled w)
  /\ generate_health_flags_with_gemini summary w
     = (inr None, State.gemini_settled w)
  /\ check_blood_donation_eligible summary w
     = (inr None, State.gemini_settled w)
  /\ log (State.gemini_settled w) = log w.
Proof. exact (gemini_off_never_calls_aux w summary score days dist avail count). Qed.

(** The statement of [gemini_flags_are_allowed], for the proofs that use it. *)
Lemma gemini_flags_are_allowed_aux (w : World) (summary : string) :
  match generate_health_flags_with_gemini summary w with
  | (inr (Some flags), _) => forall f, In f flags -> In f allowed
  | (inr None, _) => True
  | (inl _, _) => False
  end
  /\ (PyStr.truthy (PyStr.strip summary) = false ->
      generate_health_flags_with_gemini summary w = (inr (Some []), w)).
Proof.
  unfold generate_health_flags_with_gemini. split.
  - destruct (negb (PyStr.truthy summary) || negb (PyStr.truthy (PyStr.strip summary))).
    + cbn. intros f [].
    + rewrite (bind_returns _ _ _ _ _ (ensure_gemini_exact w)).
      destruct (State.gemini_enabled w); cbn [negb ret]; [| exact I].
      unfold try_except, bind, gets, generate, emit, modify.
      destruct (llm_flags _ _) as [e | | flags]; cbn -[allowed]; try exact I.
      intros f Hf. apply filter_In in Hf as [_ Hf]. now apply mem_In.
  - intros ->. cbn [negb]. now rewrite orb_true_r.
Qed.

(** X8.  [generate_health_flags_with_gemini] never raises; the flags it
    returns are all among the six known ones; for a blank summary it
    returns the empty list without asking the LLM. *)
Theorem gemini_flags_are_allowed (w : World) (summary : string) :
  match generate_health_flags_with_gemini summary w with
  | (inr (Some flags), _) => forall f, In f flags -> In f allowed
  | (inr None, _) => True
  | (inl _, _) => False
  end
  /\ (PyStr.truthy (PyStr.strip summary) = false ->
      generate_health_flags_with_gemini summary w = (inr (Some []), w)).
Proof. exact (gemini_flags_are_allowed_aux w summary). Qed.

(** The statement of [check_eligible_fails_open], for the proofs that use it. *)
Lemma check_eligible_fails_open_aux (w : World) (summary : string) :
  match check_blood_donation_eligible summary w with
  | (inr (Some (false, reason)), _) =>
      State.gemini_enabled w = true
      /\ (exists d, llm_check (llm (ext w)) (PyStr.strip summary) = LlmJson d
                    /\ js_eligible d = false)
      /\ reason <> Some ""
  | (inr _, _) => True
  | (inl _, _) => False
  end
  /\ (PyStr.truthy (PyStr.strip summary) = false ->
      check_blood_donation_eligible summary w = (inr (Some (true, None)), w)).
Proof.
  unfold check_blood_donation_eligible. split.
  - destruct (negb (PyStr.truthy summary) || negb (PyStr.truthy (PyStr.strip summary))).
    + exact I.
    + rewrite (bind_returns _ _ _ _ _ (ensure_gemini_exact w)).
      destruct (State.gemini_enabled w) eqn:En; cbn [negb ret]; [| exact I].
      unfold try_except, bind, gets, generate, emit, modify.
      destruct (gemini_settled_frame w) as (X & _). rewrite X.
      destruct (llm_check _ _) as [e | | d] eqn:R; cbn -[PyStr.strip]; try exact I.
      destruct (js_eligible d) eqn:El; cbn -[PyStr.strip]; [exact I |].
      split; [reflexivity |]. split; [exists d; split; [reflexivity | exact El] |].
      match goal with
      | |- context [PyStr.strip ?x] => destruct (PyStr.strip x)
      end; intros H; inversion H.
  - intros ->. cbn [negb]. now rewrite orb_true_r.
Qed.

(** X9.  [check_blood_donation_eligible] never raises.  It answers "not
    eligible" only when the LLM was asked and replied with an object whose
    [eligible] field is false; the reason given with it is then absent or
    not empty.  A blank summary is eligible without asking the LLM. *)
Theorem check_eligible_fails_open (w : World) (summary : string) :
  match check_blood_donation_eligible summary w with
  | (inr (Some (false, reason)), _) =>
      State.gemini_enabled w = true
      /\ (exists d, llm_check (llm (ext w)) (PyStr.strip summary) = LlmJson d
                    /\ js_eligible d = false)
      /\ reason <> Some ""
  | (inr _, _) => True
  | (inl _, _) => False
  end
  /\ (PyStr.truthy (PyStr.strip summary) = false ->
      check_blood_donation_eligible summary w = (inr (Some (true, None)), w)).
Proof. exact (check_eligible_fails_open_aux w summary). Qed.

End GeminiOff.

Section ComputeExact.
Import Py EligibilityService.
Local Open Scope Z_scope.

Lemma xai_exact (w : World) (score days : Z) (dist : Q) (avail : bool) (n : Z) :
  GeminiClient.generate_xai_reasons_with_gemini score days dist avail n w
  = if State.gemini_enabled w
    then (inr (match llm_xai (llm (ext w)) score days dist avail n with
               | LlmJson rs => Some (GeminiClient.clean_reasons rs)
               | _ => None
               end),
          State.logged (EvLlm ForXai) (State.gemini_settled w))
    else (inr None, State.gemini_settled w).
Proof.
  unfold GeminiClient.generate_xai_reasons_with_gemini.
  rewrite (bind_returns _ _ _ _ _ (ensure_gemini_exact w)).
  destruct (State.gemini_enabled w); cbn [negb]; [| reflexivity].
  unfold try_except, bind, gets, GeminiClient.generate, emit, modify.
  destruct (gemini_settled_frame w) as (X & _). rewrite X.
  destruct (llm_xai _ _ _ _ _ _); reflexivity.
Qed.

(** The run of [compute_score_and_reasons] once the model is loaded. *)
Lemma compute_exact w w1 m s days dist avail flags :
  _load_model w = (inr tt, w1) ->
  _model (glob w1) = Some m ->
  _scaler (glob w1) = Some s ->
  compute_score_and_reasons days dist avail flags w
  = let z := Spec.capped_score
               (m (s [inject_Z days; dist; if avail then 1%Q else 0%Q;
                      inject_Z (Z.of_nat (List.length flags))]))
               (PyStr.mem "serious_condition" flags) in
    let w2 := State.logged EvModelPredict w1 in
    (inr (z,
          match fst (GeminiClient.generate_xai_reasons_with_gemini
                       z days dist avail (health_count flags) w2) with
          | inr (Some (r :: rs)) => r :: rs
          | _ => rule_based_reasons (inject_Z z) days dist avail flags
          end),
     snd (GeminiClient.generate_xai_reasons_with_gemini
            z days dist avail (health_count flags) w2)).
Proof.
  intros L Hm Hs.
  unfold compute_score_and_reasons.
  rewrite (bind_returns _ _ _ _ _ L).
  erewrite bind_returns by (apply scaler_transform_some; eassumption).
  erewrite bind_returns by (apply model_predict_some; eassumption).
  unfold _build_features, health_count at 1. cbn [map item0].
  erewrite bind_returns by reflexivity.
  set (p := m (s _)).
  rewrite (score_is_capped p). rewrite py_int_inject.
  cbv zeta. fold (State.logged EvModelPredict w1).
  set (z := Spec.capped_score p _).
  unfold bind at 1, try_except, bind at 1.
  rewrite xai_exact.
  destruct (State.gemini_enabled _); [| reflexivity].
  destruct (llm_xai _ _ _ _ _ _) as [e | | rs]; try reflexivity.
  cbn [fst snd]. destruct (GeminiClient.clean_reasons rs); reflexivity.
Qed.

Lemma rule_based_reasons_length score days dist avail flags :
  (1 <= List.length (rule_based_reasons score days dist avail flags) <= 4)%nat.
Proof.
  unfold rule_based_reasons.
  destruct (PyStr.mem _ _); [simpl; lia |].
  rewrite !length_app.
  destruct (days >=? 90); [| destruct (days >=? 60)];
    (destruct (Qle_bool dist 5); [| destruct (Qle_bool dist 15)]);
    destruct avail; destruct (Qle_bool 80 score); simpl; lia.
Qed.

End ComputeExact.

Section ComputeState.
Import Py EligibilityService.
Local Open Scope Z_scope.

Lemma load_model_frame (w : World) :
  ext (snd (_load_model w)) = ext w
  /\ _gemini_configured (glob (snd (_load_model w))) = _gemini_configured (glob w)
  /\ _gemini_disabled (glob (snd (_load_model w))) = _gemini_disabled (glob w)
  /\ exists l, log (snd (_load_model w)) = (log w ++ l)%list
               /\ forall e, In e l -> exists name, e = EvJoblibLoad name.
Proof.
  unfold _load_model, bind, gets.
  destruct (_model (glob w)) as [m |].
  { repeat split. exists []. split; [now rewrite app_nil_r | intros e []]. }
  destruct (eligibility_model_joblib (artifacts (ext w))) as [| | m];
    destruct (eligibility_scaler_joblib (artifacts (ext w))) as [| | s];
    destruct (feature_names_joblib (artifacts (ext w))) as [| | n];
    cbn; repeat split;
    try (exists []; split; [now rewrite app_nil_r | intros e []]);
    rewrite <- ?app_assoc; eexists; (split; [reflexivity |]);
    intros e H; cbn in H;
    repeat (destruct H as [<- | H]; [eauto |]); contradiction.
Qed.

Lemma gemini_enabled_same (w w1 : World) :
  ext w1 = ext w ->
  _gemini_configured (glob w1) = _gemini_configured (glob w) ->
  _gemini_disabled (glob w1) = _gemini_disabled (glob w) ->
  State.gemini_enabled w1 = State.gemini_enabled w.
Proof. unfold State.gemini_enabled. now intros -> -> ->. Qed.

(** The statement of [model_is_loaded_once], for the proofs that use it. *)
Lemma model_is_loaded_once_aux
  (w w' : World) (days : Z) (dist : Q) (avail : bool) (flags : list string)
  (r : Z * list string) :
  compute_score_and_reasons days dist avail flags w = (inr r, w') ->
  exists m s,
    _model (glob w') = Some m /\ _scaler (glob w') = Some s
    /\ forall w2 days2 dist2 avail2 flags2,
         glob w2 = glob w' ->
         exists r2 w3 l,
           compute_score_and_reasons days2 dist2 avail2 flags2 w2 = (inr r2, w3)
           /\ State.logs w2 w3 l /\ State.reads_no_file l.
Proof.
  intros E.
  assert (K : forall w0 w1 m s d di a f,
             _load_model w0 = (inr tt, w1) ->
             _model (glob w1) = Some m -> _scaler (glob w1) = Some s ->
             exists r0 w3 l,
               compute_score_and_reasons d di a f w0 = (inr r0, w3)
               /\ _model (glob w3) = Some m /\ _scaler (glob w3) = Some s
               /\ log w3 = (log w1 ++ l)%list /\ State.reads_no_file l).
  { intros w0 w1 m s d di a f L Hm Hs.
    rewrite (compute_exact w0 w1 m s d di a f L Hm Hs). cbv zeta.
    rewrite xai_exact.
    destruct (gemini_settled_frame (State.logged EvModelPredict w1))
      as (_ & GL & _ & GM & GS & _).
    destruct (State.gemini_enabled _); cbn [fst snd].
    - eexists _, _, [EvModelPredict; EvLlm ForXai]. split; [reflexivity |].
      cbn [State.logged with_log glob log]. rewrite GM, GS, GL. cbn.
      rewrite <- app_assoc. repeat split; try assumption.
      intros name [H | [H | []]]; discriminate.
    - eexists _, _, [EvModelPredict]. split; [reflexivity |].
      rewrite GM, GS, GL. cbn. repeat split; try assumption.
      intros name [H | []]; discriminate. }
  destruct (Spec.model_ready w) eqn:R.
  2:{ destruct (compute_not_ready w days dist avail flags R) as (e & w0 & C).
      rewrite C in E. discriminate. }
  destruct (load_model_ready w R) as (w1 & m & s & L & Hm & Hs).
  destruct (K w w1 m s days dist avail flags L Hm Hs)
    as (r0 & w3 & l & C & Hm3 & Hs3 & _).
  rewrite C in E. injection E as <- <-.
  exists m, s. repeat split; try assumption.
  intros w2 d2 di2 a2 f2 G. rewrite <- G in Hm3, Hs3.
  destruct (K w2 w2 m s d2 di2 a2 f2 (load_model_loaded w2 m Hm3) Hm3 Hs3)
    as (r2 & w4 & l2 & C2 & _ & _ & HL & HN).
  exists r2, w4, l2. repeat split; assumption.
Qed.



(** The statement of [reasons_between_one_and_six], for the proofs that use it. *)
Lemma reasons_between_one_and_six_aux
  (w : World) (days : Z) (dist : Q) (avail : bool) (flags : list string) :
  match compute_score_and_reasons days dist avail flags w with
  | (inr (_, reasons), _) => (1 <= List.length reasons <= 6)%nat
  | (inl _, _) => Spec.model_ready w = false
  end.
Proof.
  destruct (Spec.model_ready w) eqn:R.
  2:{ destruct (compute_not_ready w days dist avail flags R) as (e & w0 & C).
      now rewrite C. }
  destruct (load_model_ready w R) as (w1 & m & s & L & Hm & Hs).
  rewrite (compute_exact w w1 m s days dist avail flags L Hm Hs). cbv zeta.
  rewrite xai_exact.
  pose proof (rule_based_reasons_length
                (inject_Z (Spec.capped_score
                   (m (s [inject_Z days; dist; if avail then 1%Q else 0%Q;
                          inject_Z (Z.of_nat (List.length flags))]))
                   (PyStr.mem "serious_condition" flags)))
                days dist avail flags) as RB.
  destruct (State.gemini_enabled _); cbn [fst snd]; [| lia].
  destruct (llm_xai _ _ _ _ _ _) as [e | | rs]; try lia.
  pose proof (clean_reasons_length rs) as CL.
  destruct (GeminiClient.clean_reasons rs); [lia | cbn [List.length] in *; lia].
Qed.



End ComputeState.

Section NltkErrors.
Import Py NlpHealth.

Lemma raises_only_ret {A} P (a : A) : State.raises_only P (ret a).
Proof. intros w e w1 H. discriminate. Qed.

Lemma raises_only_raise {A} (P : exn -> Prop) e :
  P e -> State.raises_only P (@raise A e).
Proof. intros H w e' w1 E. injection E as <- _. exact H. Qed.

Lemma raises_only_gets {A} P (f : World -> A) : State.raises_only P (gets f).
Proof. intros w e w1 H. discriminate. Qed.

Lemma raises_only_modify P f : State.raises_only P (modify f).
Proof. intros w e w1 H. discriminate. Qed.

Lemma raises_only_bind {A B} P (c : M A) (k : A -> M B) :
  State.raises_only P c -> (forall a, State.raises_only P (k a)) ->
  State.raises_only P (bind c k).
Proof.
  intros Hc Hk w e w1. unfold bind.
  destruct (c w) as [[e0 | a] w0] eqn:E.
  - intros H. injection H as <- _. exact (Hc _ _ _ E).
  - apply Hk.
Qed.

Lemma raises_only_if {A} P (b : bool) (c1 c2 : M A) :
  State.raises_only P c1 -> State.raises_only P c2 ->
  State.raises_only P (if b then c1 else c2).
Proof. now destruct b. Qed.

Ltac raises_only :=
  repeat first
    [ apply raises_only_ret
    | apply raises_only_gets
    | apply raises_only_modify
    | apply raises_only_raise; (now left) || (now right)
    | apply raises_only_if
    | apply raises_only_bind; [| intros ?] ].

Lemma find_or_download_raises resource present install :
  State.raises_only State.nltk_error (find_or_download resource present install).
Proof. unfold find_or_download, emit. raises_only. Qed.

Lemma import_nltk_raises : State.raises_only State.nltk_error import_nltk.
Proof. unfold import_nltk. raises_only. Qed.

Lemma ensure_nltk_raises : State.raises_only State.nltk_error _ensure_nltk.
Proof.
  unfold _ensure_nltk. raises_only;
    try apply find_or_download_raises; apply import_nltk_raises.
Qed.

Lemma lemmas_loop_raises tagged lemmas :
  State.raises_only State.nltk_error (lemmas_loop tagged lemmas).
Proof.
  revert lemmas. induction tagged as [| [word tag] rest IH]; intros lemmas.
  - apply raises_only_ret.
  - cbn [lemmas_loop]. apply raises_only_if; [apply IH |].
    apply raises_only_bind; [| intros lem; apply IH].
    unfold nltk_lemmatize. raises_only.
Qed.

Lemma tokenize_raises text :
  State.raises_only State.nltk_error (_tokenize_and_lemmatize text).
Proof.
  unfold _tokenize_and_lemmatize.
  apply raises_only_bind; [apply ensure_nltk_raises | intros _].
  apply raises_only_bind; [apply import_nltk_raises | intros _].
  apply raises_only_if; [apply raises_only_ret |].
  apply raises_only_bind; [unfold nltk_word_tokenize, emit; raises_only | intros tokens].
  apply raises_only_bind; [unfold nltk_pos_tag; raises_only | intros tagged].
  apply raises_only_bind; [apply lemmas_loop_raises | intros lemmas].
  apply raises_only_ret.
Qed.

Lemma fromkeys_nodup (l seen : list string) :
  NoDup (PyStr.fromkeys seen l)
  /\ forall x, In x (PyStr.fromkeys seen l) -> ~ In x seen.
Proof.
  revert seen. induction l as [| y l IH]; intros seen.
  - split; [constructor | intros x []].
  - simpl. destruct (PyStr.mem y seen) eqn:E; [apply IH |].
    destruct (IH (y :: seen)) as [N F]. split.
    + constructor; [| exact N]. intros H. apply (F y H). now left.
    + intros x [<- | H].
      * intros H. apply mem_In in H. congruence.
      * intros Hs. apply (F x H). now right.
Qed.

End NltkErrors.

Section NltkState.
Import Py NlpHealth.

Lemma returns_only_bind {A B} (Q : B -> Prop) (c : M A) (k : A -> M B) :
  (forall a, State.returns_only Q (k a)) -> State.returns_only Q (bind c k).
Proof.
  intros Hk w b w1. unfold bind.
  destruct (c w) as [[e0 | a] w0]; [discriminate | apply Hk].
Qed.

Lemma returns_only_ret {A} (Q : A -> Prop) (a : A) :
  Q a -> State.returns_only Q (ret a).
Proof. intros H w b w1 E. injection E as <- _. exact H. Qed.

Lemma tokenize_returns_nodup text :
  State.returns_only (@NoDup string) (_tokenize_and_lemmatize text).
Proof.
  unfold _tokenize_and_lemmatize.
  apply returns_only_bind; intros _. apply returns_only_bind; intros _.
  destruct (negb _); [apply returns_only_ret; constructor |].
  repeat (apply returns_only_bind; intros ?).
  apply returns_only_ret. apply fromkeys_nodup.
Qed.

(** X14.  [_tokenize_and_lemmatize] returns a list without duplicates,
    and raises nothing but the exceptions of NLTK: [ImportError] when the
    package is missing, [LookupError] when its data is. *)
Theorem tokenizer_output (w : World) (text : string) :
  match _tokenize_and_lemmatize text w with
  | (inr toks, _) => NoDup toks
  | (inl e, _) => State.nltk_error e
  end.
Proof.
  destruct (_tokenize_and_lemmatize text w) as [[e | toks] w1] eqn:E.
  - exact (tokenize_raises text _ _ _ E).
  - exact (tokenize_returns_nodup text _ _ _ E).
Qed.

Lemma ensure_nltk_ready (w : World) :
  _nltk_ready (glob w) = true -> _ensure_nltk w = (inr tt, w).
Proof. intros H. unfold _ensure_nltk, bind, gets. now rewrite H. Qed.

(** X15.  A download that failed is not tried again: when the tokenizer
    data is missing and cannot be downloaded, [_ensure_nltk] still marks
    NLTK as ready; from then on the tokenizer raises [LookupError] for
    every text that is not blank, and no download is attempted, even when
    a download would now work. *)
Theorem failed_download_is_not_retried (w : World) :
  _nltk_ready (glob w) = false ->
  nltk_importable (ext w) = true ->
  has_punkt_tab (nltk_data w) = false ->
  nltk_download_works (ext w) = false ->
  exists w1,
    _ensure_nltk w = (inr tt, w1)
    /\ _nltk_ready (glob w1) = true
    /\ has_punkt_tab (nltk_data w1) = false
    /\ forall w2 text,
         glob w2 = glob w1 ->
         nltk_data w2 = nltk_data w1 ->
         nltk_importable (ext w2) = true ->
         PyStr.truthy (_normalize_word text) = true ->
         _tokenize_and_lemmatize text w2
         = (inl LookupError, State.logged EvWordTokenize w2).
Proof.
  intros NR Imp NP ND.
  assert (T : forall w2 text,
             _nltk_ready (glob w2) = true ->
             has_punkt_tab (nltk_data w2) = false ->
             nltk_importable (ext w2) = true ->
             PyStr.truthy (_normalize_word text) = true ->
             _tokenize_and_lemmatize text w2
             = (inl LookupError, State.logged EvWordTokenize w2)).
  { intros w2 text R P I N. unfold _tokenize_and_lemmatize.
    rewrite (bind_returns _ _ _ _ _ (ensure_nltk_ready w2 R)).
    unfold import_nltk, bind at 1, bind at 1, gets at 1. rewrite I.
    unfold ret at 1. rewrite N. cbn [negb].
    unfold nltk_word_tokenize, bind, emit, modify, gets. cbn. now rewrite P. }
  assert (F : forall resource present install w0,
             nltk_download_works (ext w0) = false ->
             exists w1, find_or_download resource present install w0 = (inr tt, w1)
                        /\ State.more_log w0 w1).
  { intros resource present install w0 D.
    unfold find_or_download, bind, gets, emit, modify, ret.
    destruct (present (nltk_data w0)).
    - exists w0. repeat split.
    - cbn. rewrite D. eexists. repeat split. }
  destruct (F "punkt_tab" has_punkt_tab
              (fun d => {| has_punkt_tab := true; has_wordnet := has_wordnet d;
                           has_tagger := has_tagger d |}) w ND)
    as (wa & Ea & Xa & Ga & Da).
  destruct (F "wordnet" has_wordnet
              (fun d => {| has_punkt_tab := has_punkt_tab d; has_wordnet := true;
                           has_tagger := has_tagger d |}) wa
              ltac:(now rewrite Xa))
    as (wb & Eb & Xb & Gb & Db).
  destruct (F "averaged_perceptron_tagger_eng" has_tagger
              (fun d => {| has_punkt_tab := has_punkt_tab d;
                           has_wordnet := has_wordnet d; has_tagger := true |}) wb
              ltac:(now rewrite Xb, Xa))
    as (wc & Ec & Xc & Gc & Dc).
  exists (with_glob (set_nltk_ready true) wc).
  split.
  - unfold _ensure_nltk. unfold bind at 1, gets at 1. rewrite NR.
    unfold import_nltk. unfold bind at 1, bind at 1, gets at 1. rewrite Imp.
    unfold ret at 1.
    rewrite (bind_returns _ _ _ _ _ Ea), (bind_returns _ _ _ _ _ Eb),
      (bind_returns _ _ _ _ _ Ec).
    reflexivity.
  - split; [reflexivity |]. split; [cbn; now rewrite Dc, Db, Da |].
    intros w2 text G D I N.
    apply T; rewrite ?G, ?D; cbn; try assumption; try reflexivity.
    now rewrite Dc, Db, Da.
Qed.

End NltkState.

Section HandlerAnswers.
Import Py Main.
Local Open Scope Z_scope.



Lemma text_or_empty_is_text (body : NormalizeHealthBody) :
  text_or_empty body = text body.
Proof. unfold text_or_empty. now destruct (text body). Qed.

(** X17.  [/check-eligibility-from-health] fails open: it always answers
    with status 200, and it says "not eligible" only when the LLM was
    asked and replied with an object whose [eligible] field is false. *)
Theorem check_endpoint_fails_open (w : World) (body : NormalizeHealthBody) :
  match check_eligibility_from_health body w with
  | (inr (Returned (EligibleReason false reason)), _) =>
      State.gemini_enabled w = true
      /\ exists d,
           llm_check (llm (ext w)) (PyStr.strip (text body)) = LlmJson d
           /\ js_eligible d = false
  | (inr (Returned (EligibleReason true _)), _) => True
  | (inr (Returned (Eligible true)), _) => True
  | _ => False
  end.
Proof.
  unfold check_eligibility_from_health, try_except,
    check_eligibility_from_health_try, check_eligibility_from_health_except, bind.
  rewrite text_or_empty_is_text.
  destruct (check_eligible_fails_open_aux w (text body)) as [H _].
  destruct (GeminiClient.check_blood_donation_eligible (text body) w)
    as [[e | [[[|] reason] |]] w1]; cbn; try exact I; try contradiction.
  destruct H as (En & D & _). auto.
Qed.

End HandlerAnswers.

Section NormalizeFlags.
Import Py NlpHealth.

Lemma nltk_flags_known (w : World) (s : string) :
  match _normalize_health_to_flags_nltk s w with
  | (inr flags, _) => forall f, In f flags -> In f GeminiClient.allowed
  | (inl e, _) => State.nltk_error e
  end.
Proof.
  rewrite nltk_flags_exact_aux.
  destruct (PyStr.truthy _); [| intros f []].
  destruct (_tokenize_and_lemmatize s w) as [[e | toks] w1] eqn:E.
  - exact (tokenize_raises s _ _ _ E).
  - intros f H. apply in_map_iff in H as ([f' terms] & <- & H).
    apply filter_In in H as [H _].
    change (In (fst (f', terms)) (map fst HEALTH_TERMS)).
    now apply in_map.
Qed.

(** The statement of [normalized_flags_are_known], for the proofs that use it. *)
Lemma normalized_flags_are_known_aux (w : World) (v : py_value) :
  match normalize_health_to_flags v w with
  | (inr flags, _) => forall f, In f flags -> In f GeminiClient.allowed
  | (inl e, _) => State.nltk_error e
  end.
Proof.
  destruct v as [| s | b]; try (intros f []).
  unfold normalize_health_to_flags.
  destruct (negb (PyStr.truthy s)); [intros f [] |].
  destruct (negb (PyStr.truthy (_normalize_word s))); [intros f [] |].
  unfold bind, try_except.
  destruct (gemini_flags_are_allowed_aux w s) as [H _].
  destruct (GeminiClient.generate_health_flags_with_gemini s w)
    as [[e | [flags |]] w1]; cbn [ret].
  - contradiction.
  - exact H.
  - apply nltk_flags_known.
Qed.

(** X18.  Whichever way [normalize_health_to_flags] goes, by the LLM or
    by NLTK, every flag it returns is one of the six known flags; it
    raises nothing but the exceptions of NLTK. *)
Theorem normalized_flags_are_known (w : World) (v : py_value) :
  match normalize_health_to_flags v w with
  | (inr flags, _) => forall f, In f flags -> In f GeminiClient.allowed
  | (inl e, _) => State.nltk_error e
  end.
Proof. exact (normalized_flags_are_known_aux w v). Qed.

(** X19.  [/normalize-health] answers with status 200 and flags that are
    all among the six known ones, or with status 500 for an exception of
    NLTK. *)
Theorem normalize_health_answers (w : World) (body : Main.NormalizeHealthBody) :
  match Main.normalize_health body w with
  | (inr (Main.Returned (Main.FlagList flags)), _) =>
      forall f, In f flags -> In f GeminiClient.allowed
  | (inr (Main.HTTPException code e), _) =>
      code = 500%Z /\ State.nltk_error e
  | _ => False
  end.
Proof.
  unfold Main.normalize_health, try_except, Main.normalize_health_try,
    Main.normalize_health_except, bind.
  pose proof (normalized_flags_are_known_aux w (PyStr (Main.text_or_empty body))) as H.
  destruct (normalize_health_to_flags _ w) as [[e | flags] w1]; cbn; auto.
Qed.

End NormalizeFlags.

Section Frames.
Import Py.

Variable R : World -> World -> Prop.
Hypothesis R_refl : forall w, R w w.
Hypothesis R_trans : forall w1 w2 w3, R w1 w2 -> R w2 w3 -> R w1 w3.

Lemma preserves_ret {A} (a : A) : State.preserves R (ret a).
Proof. intros w r w' E. injection E as _ <-. apply R_refl. Qed.

Lemma preserves_raise {A} e : State.preserves R (@raise A e).
Proof. intros w r w' E. injection E as _ <-. apply R_refl. Qed.

Lemma preserves_gets {A} (f : World -> A) : State.preserves R (gets f).
Proof. intros w r w' E. injection E as _ <-. apply R_refl. Qed.

Lemma preserves_modify (f : World -> World) :
  (forall w, R w (f w)) -> State.preserves R (modify f).
Proof. intros H w r w' E. injection E as _ <-. apply H. Qed.

Lemma preserves_bind {A B} (c : M A) (k : A -> M B) :
  State.preserves R c -> (forall a, State.preserves R (k a)) ->
  State.preserves R (bind c k).
Proof.
  intros Hc Hk w r w'. unfold bind.
  destruct (c w) as [[e | a] w0] eqn:E.
  - intros H. injection H as _ <-. exact (Hc _ _ _ E).
  - intros H. exact (R_trans _ _ _ (Hc _ _ _ E) (Hk a _ _ _ H)).
Qed.

Lemma preserves_try {A} (body : M A) (h : exn -> M A) :
  State.preserves R body -> (forall e, State.preserves R (h e)) ->
  State.preserves R (try_except body h).
Proof.
  intros Hb Hh w r w'. unfold try_except.
  destruct (body w) as [[e | a] w0] eqn:E.
  - intros H. exact (R_trans _ _ _ (Hb _ _ _ E) (Hh e _ _ _ H)).
  - intros H. injection H as _ <-. exact (Hb _ _ _ E).
Qed.

Lemma preserves_if {A} (b : bool) (c1 c2 : M A) :
  State.preserves R c1 -> State.preserves R c2 ->
  State.preserves R (if b then c1 else c2).
Proof. now destruct b. Qed.

End Frames.

Ltac frame_step Rr Rt :=
  first
    [ apply (preserves_ret _ Rr)
    | apply (preserves_raise _ Rr)
    | apply (preserves_gets _ Rr)
    | apply preserves_if
    | apply (preserves_bind _ Rt); [| intros ?]
    | apply (preserves_try _ Rt); [| intros ?]
    | match goal with
      | |- State.preserves _ (match ?x with _ => _ end) => destruct x
      end ].

Section KeepsModel.
Import Py.

Lemma keeps_model_refl w : State.keeps_model w w.
Proof. now split. Qed.

Lemma keeps_model_trans w1 w2 w3 :
  State.keeps_model w1 w2 -> State.keeps_model w2 w3 -> State.keeps_model w1 w3.
Proof. intros [A B] [C D]. split; congruence. Qed.

Lemma keeps_model_modify (f : World -> World) :
  (forall w, _model (glob (f w)) = _model (glob w)
             /\ _scaler (glob (f w)) = _scaler (glob w)) ->
  State.preserves State.keeps_model (modify f).
Proof. intros H. apply preserves_modify. exact H. Qed.

Ltac keeps :=
  repeat first
    [ frame_step keeps_model_refl keeps_model_trans
    | apply keeps_model_modify; intros ?; split; reflexivity
    | unfold emit; apply keeps_model_modify; intros ?; split; reflexivity ].

Lemma gemini_flags_keeps_model s :
  State.preserves State.keeps_model
    (GeminiClient.generate_health_flags_with_gemini s).
Proof.
  unfold GeminiClient.generate_health_flags_with_gemini. keeps.
Qed.

Lemma find_or_download_keeps_model resource present install :
  State.preserves State.keeps_model
    (NlpHealth.find_or_download resource present install).
Proof. unfold NlpHealth.find_or_download. keeps. Qed.

Lemma import_nltk_keeps_model :
  State.preserves State.keeps_model NlpHealth.import_nltk.
Proof. unfold NlpHealth.import_nltk. keeps. Qed.

Lemma ensure_nltk_keeps_model :
  State.preserves State.keeps_model NlpHealth._ensure_nltk.
Proof.
  unfold NlpHealth._ensure_nltk. keeps;
    try apply find_or_download_keeps_model; apply import_nltk_keeps_model.
Qed.

Lemma lemmas_loop_keeps_model tagged lemmas :
  State.preserves State.keeps_model (NlpHealth.lemmas_loop tagged lemmas).
Proof.
  revert lemmas. induction tagged as [| [word tag] rest IH]; intros lemmas.
  - keeps.
  - cbn [NlpHealth.lemmas_loop]. apply preserves_if; [apply IH |].
    apply (preserves_bind _ keeps_model_trans); [| intros lem; apply IH].
    unfold NlpHealth.nltk_lemmatize. keeps.
Qed.

Lemma tokenize_keeps_model text :
  State.preserves State.keeps_model (NlpHealth._tokenize_and_lemmatize text).
Proof.
  unfold NlpHealth._tokenize_and_lemmatize.
  apply (preserves_bind _ keeps_model_trans); [apply ensure_nltk_keeps_model | intros _].
  apply (preserves_bind _ keeps_model_trans); [apply import_nltk_keeps_model | intros _].
  apply preserves_if; [keeps |].
  apply (preserves_bind _ keeps_model_trans);
    [unfold NlpHealth.nltk_word_tokenize; keeps | intros tokens].
  apply (preserves_bind _ keeps_model_trans);
    [unfold NlpHealth.nltk_pos_tag; keeps | intros tagged].
  apply (preserves_bind _ keeps_model_trans);
    [apply lemmas_loop_keeps_model | intros lemmas].
  keeps.
Qed.

Lemma normalize_keeps_model v :
  State.preserves State.keeps_model (NlpHealth.normalize_health_to_flags v).
Proof.
  destruct v as [| s | b]; [keeps | | keeps].
  unfold NlpHealth.normalize_health_to_flags.
  apply preserves_if; [keeps |]. apply preserves_if; [keeps |].
  apply (preserves_bind _ keeps_model_trans).
  - apply (preserves_try _ keeps_model_trans);
      [apply gemini_flags_keeps_model | intros e; keeps].
  - intros [flags |]; [keeps |].
    unfold NlpHealth._normalize_health_to_flags_nltk.
    apply preserves_if; [keeps |].
    apply (preserves_bind _ keeps_model_trans); [apply tokenize_keeps_model | intros ?].
    keeps.
Qed.

End KeepsModel.

Section CheckMain.
Import Py CheckMlWorking.
Local Open Scope Z_scope.

Lemma check_predict_run (w : World) :
  match EligibilityService.compute_score_and_reasons 120 5 true [] w with
  | (inr _, w1) =>
      check_predict w = (inr None, w1)
      /\ exists m s, _model (glob w1) = Some m /\ _scaler (glob w1) = Some s
  | (inl _, w1) => check_predict w = (inr (Some 1), w1)
  end.
Proof.
  unfold check_predict, try_except, bind.
  pose proof (reasons_between_one_and_six_aux w 120 5 true []) as L.
  destruct (EligibilityService.compute_score_and_reasons 120 5 true [] w)
    as [[e | [score reasons]] w1] eqn:C; [reflexivity |].
  destruct (model_is_loaded_once_aux w w1 120 5 true [] _ C) as (m & s & Hm & Hs & _).
  split; [| eauto].
  destruct (Spec.model_ready w) eqn:R.
  2:{ destruct (compute_not_ready w 120 5 true [] R) as (e & w0 & C').
      rewrite C' in C. discriminate. }
  destruct (compute_ready w 120 5 true [] R) as (p & rs & w' & C' & _).
  rewrite C' in C. injection C as <- <- <-.
  pose proof (capped_score_range p (PyStr.mem "serious_condition" [])) as B.
  replace (0 <=? _) with true by (symmetry; apply Z.leb_le; lia).
  replace (_ <=? 100) with true by (symmetry; apply Z.leb_le; lia).
  cbn [andb negb].
  replace (1 <=? List.length rs)%nat with true
    by (symmetry; apply Nat.leb_le; lia).
  reflexivity.
Qed.

Lemma check_serious_run (w : World) (m : Model) (s : Scaler) :
  _model (glob w) = Some m -> _scaler (glob w) = Some s ->
  exists w', check_serious w = (inr None, w').
Proof.
  intros Hm Hs. unfold check_serious, try_except, bind.
  destruct (compute_after_load w w m s 120 2 true ["serious_condition"]
              (load_model_loaded w m Hm) Hm Hs) as (rs & w' & C & _).
  rewrite C. change (PyStr.mem "serious_condition" ["serious_condition"]) with true.
  pose proof (capped_score_serious
                (m (s [inject_Z 120; 2%Q; 1%Q;
                       inject_Z (Z.of_nat (List.length ["serious_condition"]))]))) as B.
  cbv beta iota.
  replace (_ <=? 15) with true by (symmetry; apply Z.leb_le; exact B).
  cbn [negb]. eexists. reflexivity.
Qed.

Lemma check_normalize_run (w : World) :
  match NlpHealth.normalize_health_to_flags (NlpHealth.PyStr "I have cancer") w with
  | (inl _, w2) => check_normalize w = (inr (Some 1), w2)
  | (inr flags, w2) =>
      if PyStr.mem "serious_condition" flags
      then match NlpHealth.normalize_health_to_flags
                   (NlpHealth.PyStr "No illness") w2 with
           | (inl _, w3) => check_normalize w = (inr (Some 1), w3)
           | (inr _, w3) => check_normalize w = (inr None, w3)
           end
      else check_normalize w = (inr (Some 1), w2)
  end.
Proof.
  unfold check_normalize, try_except, bind.
  destruct (NlpHealth.normalize_health_to_flags (NlpHealth.PyStr "I have cancer") w)
    as [[e | flags] w2]; [reflexivity |].
  destruct (PyStr.mem "serious_condition" flags); cbn [negb]; [| reflexivity].
  destruct (NlpHealth.normalize_health_to_flags (NlpHealth.PyStr "No illness") w2)
    as [[e | flags2] w3]; reflexivity.
Qed.

(** The statement of [check_main_exit_code], for the proofs that use it. *)
Lemma check_main_exit_code_aux (w : World) :
  match EligibilityService.compute_score_and_reasons 120 5 true [] w with
  | (inl _, _) => fst (main w) = inr 1
  | (inr _, w1) =>
      match NlpHealth.normalize_health_to_flags (NlpHealth.PyStr "I have cancer") w1 with
      | (inl _, _) => fst (main w) = inr 1
      | (inr flags, w2) =>
          if PyStr.mem "serious_condition" flags
          then match NlpHealth.normalize_health_to_flags
                       (NlpHealth.PyStr "No illness") w2 with
               | (inl _, _) => fst (main w) = inr 1
               | (inr _, _) => fst (main w) = inr 0
               end
          else fst (main w) = inr 1
      end
  end.
Proof.
  pose proof (check_predict_run w) as P1. unfold main.
  destruct (EligibilityService.compute_score_and_reasons 120 5 true [] w)
    as [[e | sr] w1].
  { now rewrite (bind_returns _ _ _ _ _ P1). }
  destruct P1 as (P1 & m & s & Hm & Hs).
  rewrite (bind_returns _ _ _ _ _ P1). cbv beta iota.
  pose proof (check_normalize_run w1) as P2.
  destruct (NlpHealth.normalize_health_to_flags (NlpHealth.PyStr "I have cancer") w1)
    as [[e | flags] w2] eqn:N1.
  { now rewrite (bind_returns _ _ _ _ _ P2). }
  pose proof (normalize_keeps_model _ _ _ _ N1) as [K1m K1s].
  destruct (PyStr.mem "serious_condition" flags).
  2:{ now rewrite (bind_returns _ _ _ _ _ P2). }
  destruct (NlpHealth.normalize_health_to_flags (NlpHealth.PyStr "No illness") w2)
    as [[e | flags2] w3] eqn:N2.
  { now rewrite (bind_returns _ _ _ _ _ P2). }
  pose proof (normalize_keeps_model _ _ _ _ N2) as [K2m K2s].
  rewrite (bind_returns _ _ _ _ _ P2). cbv beta iota.
  destruct (check_serious_run w3 m s) as (w4 & C3); [congruence | congruence |].
  now rewrite (bind_returns _ _ _ _ _ C3).
Qed.

(** X20.  The check script never raises, and its exit code is decided by
    the first model call and the two normalizations alone: it is 0 when
    the model returns a score, ["I have cancer"] gives the flag
    [serious_condition] and ["No illness"] can be normalized, and 1
    otherwise.  The asserts on the score range, on the reasons and on the
    cap at 15 never fail, and the second model call never raises. *)
Theorem check_main_exit_code (w : World) :
  match EligibilityService.compute_score_and_reasons 120 5 true [] w with
  | (inl _, _) => fst (main w) = inr 1
  | (inr _, w1) =>
      match NlpHealth.normalize_health_to_flags (NlpHealth.PyStr "I have cancer") w1 with
      | (inl _, _) => fst (main w) = inr 1
      | (inr flags, w2) =>
          if PyStr.mem "serious_condition" flags
          then match NlpHealth.normalize_health_to_flags
                       (NlpHealth.PyStr "No illness") w2 with
               | (inl _, _) => fst (main w) = inr 1
               | (inr _, _) => fst (main w) = inr 0
               end
          else fst (main w) = inr 1
      end
  end.
Proof. exact (check_main_exit_code_aux w). Qed.

End CheckMain.

Section Safe.
Import Py NlpHealth.

Variable I : World -> Prop.

Lemma safe_ret {A} (a : A) : State.safe I (ret a).
Proof. intros w H. exists a, w. now split. Qed.

Lemma safe_gets {A} (f : World -> A) : State.safe I (gets f).
Proof. intros w H. exists (f w), w. now split. Qed.

Lemma safe_modify (f : World -> World) :
  (forall w, I w -> I (f w)) -> State.safe I (modify f).
Proof. intros Hf w H. exists tt, (f w). split; [reflexivity | now apply Hf]. Qed.

Lemma safe_bind {A B} (c : M A) (k : A -> M B) :
  State.safe I c -> (forall a, State.safe I (k a)) -> State.safe I (bind c k).
Proof.
  intros Hc Hk w H. destruct (Hc w H) as (a & w1 & E & H1).
  unfold bind. rewrite E. now apply Hk.
Qed.

Lemma safe_if {A} (b : bool) (c1 c2 : M A) :
  State.safe I c1 -> State.safe I c2 -> State.safe I (if b then c1 else c2).
Proof. now destruct b. Qed.

End Safe.

Section LocalNlp.
Import Py NlpHealth.

Lemma local_nlp_parts w :
  State.local_nlp w ->
  nltk_importable (ext w) = true /\ has_punkt_tab (nltk_data w) = true
  /\ has_wordnet (nltk_data w) = true /\ has_tagger (nltk_data w) = true.
Proof.
  intros [H _]. unfold State.nltk_installed in H.
  repeat (apply andb_true_iff in H as [H ?]). auto.
Qed.

Lemma import_nltk_safe : State.safe State.local_nlp import_nltk.
Proof.
  intros w H. unfold import_nltk, bind, gets.
  destruct (local_nlp_parts w H) as (-> & _). exists tt, w. now split.
Qed.

Lemma find_or_download_safe resource present install :
  (forall w, State.local_nlp w -> present (nltk_data w) = true) ->
  State.safe State.local_nlp (find_or_download resource present install).
Proof.
  intros Hp w H. unfold find_or_download, bind, gets.
  rewrite (Hp w H). exists tt, w. now split.
Qed.

Lemma ensure_nltk_safe : State.safe State.local_nlp _ensure_nltk.
Proof.
  unfold _ensure_nltk.
  apply safe_bind; [apply safe_gets | intros g].
  apply safe_if; [apply safe_ret |].
  apply safe_bind; [apply import_nltk_safe | intros _].
  repeat (apply safe_bind;
          [apply find_or_download_safe; intros w H; now apply local_nlp_parts
          | intros _]).
  apply safe_modify. intros w H. exact H.
Qed.

Lemma word_tokenize_safe text : State.safe State.local_nlp (nltk_word_tokenize text).
Proof.
  intros w H. unfold nltk_word_tokenize, bind, emit, modify, gets. cbn.
  destruct (local_nlp_parts w H) as (_ & -> & _). eexists _, _. split; [reflexivity | exact H].
Qed.

Lemma pos_tag_safe tokens : State.safe State.local_nlp (nltk_pos_tag tokens).
Proof.
  intros w H. unfold nltk_pos_tag, bind, gets.
  destruct (local_nlp_parts w H) as (_ & _ & _ & ->). eexists _, _. split; [reflexivity | exact H].
Qed.

Lemma lemmatize_safe x pos : State.safe State.local_nlp (nltk_lemmatize x pos).
Proof.
  intros w H. unfold nltk_lemmatize, bind, gets.
  destruct (local_nlp_parts w H) as (_ & _ & -> & _). eexists _, _. split; [reflexivity | exact H].
Qed.

Lemma lemmas_loop_safe tagged lemmas :
  State.safe State.local_nlp (lemmas_loop tagged lemmas).
Proof.
  revert lemmas. induction tagged as [| [word tag] rest IH]; intros lemmas.
  - apply safe_ret.
  - cbn [lemmas_loop]. apply safe_if; [apply IH |].
    apply safe_bind; [apply lemmatize_safe | intros lem; apply IH].
Qed.

Lemma tokenize_safe text :
  State.safe State.local_nlp (_tokenize_and_lemmatize text).
Proof.
  unfold _tokenize_and_lemmatize.
  apply safe_bind; [apply ensure_nltk_safe | intros _].
  apply safe_bind; [apply import_nltk_safe | intros _].
  apply safe_if; [apply safe_ret |].
  apply safe_bind; [apply word_tokenize_safe | intros tokens].
  apply safe_bind; [apply pos_tag_safe | intros tagged].
  apply safe_bind; [apply lemmas_loop_safe | intros lemmas].
  apply safe_ret.
Qed.

Lemma nltk_flags_safe s :
  State.safe State.local_nlp (_normalize_health_to_flags_nltk s).
Proof.
  unfold _normalize_health_to_flags_nltk.
  apply safe_if; [apply safe_ret |].
  apply safe_bind; [apply tokenize_safe | intros toks]. apply safe_ret.
Qed.

(** With NLTK installed and the LLM off, the flags of a text that is not
    blank are those of the NLTK extractor, and it returns. *)
Lemma normalize_local (w : World) (s : string) :
  State.local_nlp w ->
  PyStr.truthy (PyStr.strip s) = true ->
  PyStr.truthy (_normalize_word s) = true ->
  exists flags w',
    normalize_health_to_flags (PyStr s) w = (inr flags, w')
    /\ _normalize_health_to_flags_nltk s (State.gemini_settled w) = (inr flags, w')
    /\ State.local_nlp w'.
Proof.
  intros H T N.
  assert (H' : State.local_nlp (State.gemini_settled w)).
  { destruct H as [Hi Hg]. destruct (gemini_settled_frame w)
      as (X & _ & D & _ & _ & _ & _ & G).
    split; [| congruence].
    unfold State.nltk_installed in *. now rewrite X, D. }
  destruct (nltk_flags_safe s _ H') as (flags & w' & E & H'').
  exists flags, w'. split; [| split; assumption].
  unfold normalize_health_to_flags.
  rewrite (strip_truthy _ T), N. cbn [negb].
  destruct (gemini_off_never_calls_aux w s 0 0 0 true 0 (proj2 H) T) as (_ & _ & G & _).
  unfold bind at 1, try_except. rewrite G. exact E.
Qed.

End LocalNlp.

Section CheckPasses.
Import Py CheckMlWorking.
Local Open Scope Z_scope.

Lemma load_model_nltk_data (w : World) :
  nltk_data (snd (EligibilityService._load_model w)) = nltk_data w.
Proof.
  unfold EligibilityService._load_model, bind, gets.
  destruct (_model (glob w)) as [m |]; [reflexivity |].
  destruct (eligibility_model_joblib (artifacts (ext w))) as [| | m];
    destruct (eligibility_scaler_joblib (artifacts (ext w))) as [| | s];
    destruct (feature_names_joblib (artifacts (ext w))) as [| | n];
    reflexivity.
Qed.

Lemma nltk_returns_flag w s flag terms term flags w' :
  In (flag, terms) NlpHealth.HEALTH_TERMS ->
  In term terms ->
  PyStr.contains (NlpHealth._normalize_word term) (NlpHealth._normalize_word s) = true ->
  NlpHealth._normalize_health_to_flags_nltk s w = (inr flags, w') ->
  In flag flags.
Proof.
  intros Hf Ht Hc. rewrite nltk_flags_exact_aux.
  destruct (PyStr.truthy (NlpHealth._normalize_word s)) eqn:T.
  - destruct (NlpHealth._tokenize_and_lemmatize s w) as [[e | toks] w1];
      [discriminate |].
    match goal with |- (inr ?L, _) = _ -> _ => set (l := L) end.
    intros E. injection E as <- _. subst l.
    apply in_map_iff. exists (flag, terms). split; [reflexivity |].
    apply filter_In. split; [assumption |].
    apply existsb_exists. exists term. split; [assumption |].
    unfold NlpHealth.term_matches. now rewrite Hc, orb_true_r.
  - exfalso. destruct (NlpHealth._normalize_word s); [| discriminate].
    apply contains_occurs, occurs_in_empty in Hc.
    now apply (health_terms_nonempty flag terms term) in Hc.
Qed.

Lemma compute_local w days dist avail flags :
  Spec.model_ready w = true ->
  State.local_nlp w ->
  exists r w1,
    EligibilityService.compute_score_and_reasons days dist avail flags w = (inr r, w1)
    /\ State.local_nlp w1.
Proof.
  intros R [Hi Hg].
  destruct (load_model_ready w R) as (w1 & m & s & L & Hm & Hs).
  rewrite (compute_exact w w1 m s days dist avail flags L Hm Hs). cbv zeta.
  eexists _, _. split; [reflexivity |].
  rewrite xai_exact.
  destruct (load_model_frame w) as (X & GC & GD & _).
  pose proof (load_model_nltk_data w) as D.
  rewrite L in X, GC, GD, D. cbn [snd] in *.
  assert (E : State.gemini_enabled (State.logged EvModelPredict w1) = false).
  { rewrite <- Hg. apply gemini_enabled_same; assumption. }
  rewrite E. cbn [snd].
  destruct (gemini_settled_frame (State.logged EvModelPredict w1))
    as (X2 & _ & D2 & _ & _ & _ & _ & G2).
  split; [| congruence].
  unfold State.nltk_installed in *. rewrite X2, D2. cbn. now rewrite X, D.
Qed.

(** X21.  The check script passes, with exit code 0, whenever the model
    can be used, NLTK is installed with its data and the LLM is switched
    off. *)
Theorem check_main_passes (w : World) :
  Spec.model_ready w = true ->
  State.local_nlp w ->
  fst (main w) = inr 0.
Proof.
  intros R H.
  destruct (compute_local w 120 5 true [] R H) as (r & w1 & C & H1).
  destruct (normalize_local w1 "I have cancer" H1 eq_refl eq_refl)
    as (flags & w2 & N1 & K1 & H2).
  destruct (normalize_local w2 "No illness" H2 eq_refl eq_refl)
    as (flags2 & w3 & N2 & _ & _).
  assert (S : PyStr.mem "serious_condition" flags = true).
  { apply mem_In.
    eapply (nltk_returns_flag _ "I have cancer" "serious_condition" _ "cancer");
      [| | | exact K1].
    - do 5 right. left. reflexivity.
    - now left.
    - reflexivity. }
  pose proof (check_main_exit_code_aux w) as M.
  rewrite C in M. rewrite N1 in M. rewrite S in M. now rewrite N2 in M.
Qed.

Lemma rstrip_empty_blank (x : string) :
  PyStr.rstrip x = "" -> PyStr.all_chars PyStr.isspace x = true.
Proof.
  induction x as [| c x IH]; [reflexivity |].
  simpl. destruct (PyStr.rstrip x); [| discriminate].
  destruct (PyStr.isspace c); [| discriminate]. intros _. now apply IH.
Qed.

Lemma lstrip_blank (s : string) :
  PyStr.all_chars PyStr.isspace (PyStr.lstrip s) = true ->
  PyStr.all_chars PyStr.isspace s = true.
Proof.
  induction s as [| c s IH]; [reflexivity |].
  simpl. destruct (PyStr.isspace c) eqn:E; [exact IH |].
  simpl. now rewrite E.
Qed.

Lemma normalize_word_truthy_strip (s : string) :
  PyStr.truthy (NlpHealth._normalize_word s) = true ->
  PyStr.truthy (PyStr.strip s) = true.
Proof.
  intros N. destruct (PyStr.strip s) eqn:E; [| reflexivity].
  apply rstrip_empty_blank, lstrip_blank, normalize_word_blank in E.
  rewrite E in N. discriminate.
Qed.

(** X22.  With NLTK installed and the LLM switched off,
    [/normalize-health] always answers with status 200. *)
Theorem normalize_health_local (w : World) (body : Main.NormalizeHealthBody) :
  State.local_nlp w ->
  exists flags w',
    Main.normalize_health body w = (inr (Main.Returned (Main.FlagList flags)), w')
    /\ State.local_nlp w'.
Proof.
  intros H.
  unfold Main.normalize_health, try_except, Main.normalize_health_try, bind.
  rewrite text_or_empty_is_text.
  destruct (PyStr.truthy (NlpHealth._normalize_word (Main.text body))) eqn:N.
  - pose proof (normalize_word_truthy_strip _ N) as T.
    destruct (normalize_local w (Main.text body) H T N) as (flags & w' & E & _ & H').
    rewrite E. exists flags, w'. split; [reflexivity | exact H'].
  - unfold NlpHealth.normalize_health_to_flags. rewrite N.
    destruct (negb (PyStr.truthy (Main.text body))); cbn;
      exists [], w; (split; [reflexivity | exact H]).
Qed.

End CheckPasses.

Section ExtractJsonFacts.
Import ExtractJson.
Local Open Scope Z_scope.

Lemma find_char_skip (pre rest : string) :
  no_open_brace pre = true ->
  find_char "{" (pre ++ String "{" rest) = Some (String.length pre).
Proof.
  unfold no_open_brace. induction pre as [| c pre IH]; [reflexivity |].
  simpl. intros H. apply andb_true_iff in H as [Hc Hp].
  apply negb_true_iff in Hc. rewrite Hc. now rewrite IH.
Qed.

Lemma drop_app (pre s : string) : drop (String.length pre) (pre ++ s) = s.
Proof. induction pre; simpl; auto. Qed.

Lemma take_app (s t : string) : take (String.length s) (s ++ t) = s.
Proof. induction s as [| c s IH]; simpl; [now destruct t | now rewrite IH]. Qed.

Lemma depth_of_app (a b : string) : depth_of (a ++ b) = depth_of a + depth_of b.
Proof. induction a as [| c a IH]; simpl; [reflexivity | rewrite IH; lia]. Qed.

(** Inside a block the loop goes on; at its last character it returns. *)
Lemma scan_to_block_end (cand post : string) (d : Z) (i : nat) :
  0 < d ->
  cand <> "" ->
  d + depth_of cand = 0 ->
  (forall p q, cand = p ++ q -> p <> "" -> q <> "" -> 0 < d + depth_of p) ->
  scan d i (cand ++ post) = Some (i + String.length cand - 1)%nat.
Proof.
  revert d i. induction cand as [| c r IH]; intros d i Hd Hne Hz Hmin;
    [contradiction |].
  destruct r as [| c' r'].
  - (* the last character *)
    simpl in Hz. cbn [append scan String.length].
    destruct (Ascii.eqb c "{"); [lia |].
    destruct (Ascii.eqb c "}"); [| lia].
    replace (d - 1 =? 0) with true by (symmetry; apply Z.eqb_eq; lia).
    f_equal. lia.
  - assert (P : 0 < d + depth_of (String c "")).
    { apply (Hmin (String c "") (String c' r')); [reflexivity | discriminate | discriminate]. }
    assert (Hz' : (d + depth_of (String c "")) + depth_of (String c' r') = 0).
    { change (String c (String c' r')) with (String c "" ++ String c' r') in Hz.
      rewrite depth_of_app in Hz. lia. }
    assert (Hmin' : forall p q, String c' r' = p ++ q -> p <> "" -> q <> "" ->
                      0 < (d + depth_of (String c "")) + depth_of p).
    { intros p q E Np Nq.
      specialize (Hmin (String c p) q). simpl in Hmin. rewrite <- E in Hmin.
      specialize (Hmin eq_refl ltac:(discriminate) Nq).
      simpl. lia. }
    specialize (IH (d + depth_of (String c "")) (S i) P ltac:(discriminate) Hz' Hmin').
    change ((String c (String c' r')) ++ post) with (String c (String c' r' ++ post)).
    cbn [scan]. cbn [depth_of] in P, IH.
    replace (S i + String.length (String c' r') - 1)%nat
      with (i + String.length (String c (String c' r')) - 1)%nat in IH
      by (cbn [String.length]; lia).
    destruct (Ascii.eqb c "{").
    + replace (d + 1) with (d + (1 + 0)) by lia. exact IH.
    + destruct (Ascii.eqb c "}").
      * replace (d - 1 =? 0) with false by (symmetry; apply Z.eqb_neq; lia).
        replace (d - 1) with (d + (-1 + 0)) by lia. exact IH.
      * replace d with (d + (0 + 0)) at 1 by lia. exact IH.
Qed.

(** X23.  [_extract_json] parses the first block of braces and nothing
    else: when the text is [pre ++ cand ++ post], with no ["{"] in [pre]
    and [cand] a block, the result is what [json.loads] makes of [cand],
    whatever follows; a text without ["{"] gives [None]. *)
Theorem extract_json_parses_first_block
  {J : Type} (json_loads : string -> option J) (pre cand post : string) :
  no_open_brace pre = true ->
  block cand ->
  _extract_json json_loads (pre ++ cand ++ post) = json_loads cand.
Proof.
  intros Hpre ((r & ->) & Hz & Hmin).
  unfold _extract_json.
  change (String "{" r ++ post) with (String "{" (r ++ post)).
  rewrite (find_char_skip pre _ Hpre), drop_app.
  cbn [scan]. change (Ascii.eqb "{" "{") with true. cbv iota.
  change (0 + 1) with 1.
  assert (Hz1 : 1 + depth_of r = 0) by exact Hz.
  assert (Nr : r <> "").
  { intros ->. simpl in Hz. discriminate. }
  rewrite (scan_to_block_end r post 1 (S (String.length pre))); try lia; try assumption.
  - unfold slice. rewrite drop_app.
    replace (S (String.length pre) + String.length r - 1 + 1 - String.length pre)%nat
      with (String.length (String "{" r)) by (simpl; lia).
    change (String "{" (r ++ post)) with (String "{" r ++ post).
    now rewrite take_app.
  - intros p q E Np Nq.
    specialize (Hmin (String "{" p) q). cbn [append] in Hmin. rewrite <- E in Hmin.
    specialize (Hmin eq_refl ltac:(discriminate) Nq).
    change (depth_of (String "{" p)) with (1 + depth_of p) in Hmin. exact Hmin.
Qed.

End ExtractJsonFacts.

Section ExtractJsonNone.
Import ExtractJson.
Local Open Scope Z_scope.

Lemma find_char_none (s : string) :
  no_open_brace s = true -> find_char "{" s = None.
Proof.
  unfold no_open_brace. induction s as [| c s IH]; [reflexivity |].
  simpl. intros H. apply andb_true_iff in H as [Hc Hs].
  apply negb_true_iff in Hc. rewrite Hc. now rewrite IH.
Qed.

Lemma scan_never_closes (s : string) (d : Z) (i : nat) :
  0 < d ->
  (forall p q, s = p ++ q -> 0 < d + depth_of p) ->
  scan d i s = None.
Proof.
  revert d i. induction s as [| c s IH]; intros d i Hd H; [reflexivity |].
  pose proof (H (String c "") s eq_refl) as P. cbn [depth_of] in P.
  assert (K : forall d', d' = d + depth_of (String c "") -> scan d' (S i) s = None).
  { intros d' ->. apply IH.
    - exact P.
    - intros p q E. specialize (H (String c p) q). cbn [append] in H.
      rewrite <- E in H. specialize (H eq_refl).
      cbn [depth_of] in *. lia. }
  cbn [scan]. cbn [depth_of] in K.
  destruct (Ascii.eqb c "{"); [apply K; lia |].
  destruct (Ascii.eqb c "}").
  - replace (d - 1 =? 0) with false by (symmetry; apply Z.eqb_neq; lia).
    apply K. lia.
  - apply K. lia.
Qed.

(** X24.  [_extract_json] gives [None], without calling [json.loads],
    for a text with no ["{"] and for a text whose first ["{"] is never
    closed. *)
Theorem extract_json_without_block
  {J : Type} (json_loads : string -> option J) (pre rest : string) :
  no_open_brace pre = true ->
  (_extract_json json_loads pre = None)
  /\ ((forall p q, rest = p ++ q -> 0 <= depth_of p) ->
      _extract_json json_loads (pre ++ String "{" rest) = None).
Proof.
  intros Hpre. unfold _extract_json. split.
  - now rewrite find_char_none.
  - intros H. rewrite (find_char_skip pre rest Hpre), drop_app.
    cbn [scan]. change (Ascii.eqb "{" "{") with true. cbv iota.
    rewrite scan_never_closes; [reflexivity | lia |].
    intros p q E. specialize (H p q E). lia.
Qed.

End ExtractJsonNone.

Section RuleBasedMore.
Import PyNum.
Local Open Scope Z_scope.


(** X26.  The rule-based score does not decrease when the donor becomes
    available, when the distance shrinks, or when the number of health
    flags, not negative, shrinks. *)
Theorem rule_based_score_other_arguments
  (days_since : Z) (distance_km : Q) (is_available : bool) (health_flag_count : Z) :
  (TrainModel.rule_based_score days_since distance_km false health_flag_count
   <= TrainModel.rule_based_score days_since distance_km true health_flag_count)%Q
  /\ (forall nearer, (nearer <= distance_km)%Q ->
        (TrainModel.rule_based_score days_since distance_km is_available health_flag_count
         <= TrainModel.rule_based_score days_since nearer is_available health_flag_count)%Q)
  /\ (forall fewer, 0 <= fewer <= health_flag_count ->
        (TrainModel.rule_based_score days_since distance_km is_available health_flag_count
         <= TrainModel.rule_based_score days_since distance_km is_available fewer)%Q).
Proof.
  unfold TrainModel.rule_based_score. repeat split.
  - apply np_clip_mono, np_round_mono.
    destruct (days_since >=? 90); destruct (days_since >=? 60);
      destruct (Qle_bool distance_km 5); destruct (Qle_bool distance_km 15);
      destruct (health_flag_count =? 0); lra.
  - intros nearer N. apply np_clip_mono, np_round_mono.
    repeat match goal with
      | |- context [Qle_bool ?a ?b] =>
          let E := fresh "E" in destruct (Qle_bool a b) eqn:E
      end;
      repeat match goal with
        | E : Qle_bool _ _ = true |- _ => apply Qle_bool_iff in E
        | E : Qle_bool ?a ?b = false |- _ =>
            assert (b < a)%Q
              by (apply Qnot_le_lt; intros L; apply Qle_bool_iff in L; congruence);
            clear E
        end;
      destruct (days_since >=? 90); destruct (days_since >=? 60);
      destruct is_available; destruct (health_flag_count =? 0); lra.
  - intros fewer F. apply np_clip_mono, np_round_mono.
    assert (T : (inject_Z (fewer * 10) <= inject_Z (health_flag_count * 10))%Q)
      by (rewrite <- Zle_Qle; lia).
    assert (T0 : (0 <= inject_Z (health_flag_count * 10))%Q)
      by (change 0%Q with (inject_Z 0); rewrite <- Zle_Qle; lia).
    destruct (Z.eqb_spec health_flag_count 0) as [-> | Nc].
    + replace fewer with 0 by lia. cbn [Z.eqb].
      destruct (days_since >=? 90); destruct (days_since >=? 60);
        destruct is_available; destruct (Qle_bool distance_km 5);
        destruct (Qle_bool distance_km 15); lra.
    + destruct (Z.eqb_spec fewer 0) as [-> | Nf];
        destruct (days_since >=? 90); destruct (days_since >=? 60);
        destruct is_available; destruct (Qle_bool distance_km 5);
        destruct (Qle_bool distance_km 15); lra.
Qed.

End RuleBasedMore.

(** ** More instances *)

Section MoreInstances.
Import Py.
Local Open Scope Z_scope.

Lemma nltk_flag_iff_witness :
  exists flags,
    NlpHealth._normalize_health_to_flags_nltk "I have cancer" Sample.offline
    = (inr flags,
       snd (NlpHealth._tokenize_and_lemmatize "I have cancer" Sample.offline))
    /\ NoDup flags
    /\ forall flag,
         In flag flags
         <-> exists terms term,
               In (flag, terms) NlpHealth.HEALTH_TERMS /\ In term terms
               /\ (In (NlpHealth._normalize_word term) ["have"; "cancer"]
                   \/ Spec.occurs_in (NlpHealth._normalize_word term)
                        (NlpHealth._normalize_word "I have cancer")).
Proof.
  apply (nltk_flag_iff_term_matches Sample.offline _ "I have cancer"
           ["have"; "cancer"]); reflexivity.
Defined.

(** The key was set when the LLM was first asked for; removing it later
    changes nothing. *)
Lemma ensure_gemini_decides_once_witness :
  GeminiClient._ensure_gemini
    (SampleMore.later (snd (GeminiClient._ensure_gemini Sample.online)))
  = (inr true, SampleMore.later (snd (GeminiClient._ensure_gemini Sample.online))).
Proof.
  apply (ensure_gemini_decides_once Sample.online
           (snd (GeminiClient._ensure_gemini Sample.online))); reflexivity.
Defined.

Lemma gemini_off_never_calls_witness :
  GeminiClient.eligibility_score_from_full_context "healthy" 120 (2 # 1) true
    Sample.offline
  = (inr None, State.gemini_settled Sample.offline)
  /\ log (State.gemini_settled Sample.offline) = log Sample.offline.
Proof.
  destruct (gemini_off_never_calls Sample.offline "healthy" 42 120 (2 # 1) true 0
              eq_refl eq_refl) as (A & _ & _ & _ & B).
  exact (conj A B).
Defined.

(** A blank summary is answered without asking the LLM, although it is
    switched on. *)
Lemma gemini_flags_are_allowed_witness :
  GeminiClient.generate_health_flags_with_gemini "   " Sample.online
  = (inr (Some []), Sample.online).
Proof.
  apply (proj2 (gemini_flags_are_allowed Sample.online "   ")). reflexivity.
Defined.

Lemma check_eligible_fails_open_witness :
  GeminiClient.check_blood_donation_eligible "   " Sample.online
  = (inr (Some (true, None)), Sample.online).
Proof.
  apply (proj2 (check_eligible_fails_open Sample.online "   ")). reflexivity.
Defined.




Lemma failed_download_is_not_retried_witness :
  exists w1,
    NlpHealth._ensure_nltk SampleMore.no_tokenizer = (inr tt, w1)
    /\ _nltk_ready (glob w1) = true
    /\ has_punkt_tab (nltk_data w1) = false
    /\ forall w2 text,
         glob w2 = glob w1 ->
         nltk_data w2 = nltk_data w1 ->
         nltk_importable (ext w2) = true ->
         PyStr.truthy (NlpHealth._normalize_word text) = true ->
         NlpHealth._tokenize_and_lemmatize text w2
         = (inl LookupError, State.logged EvWordTokenize w2).
Proof.
  apply (failed_download_is_not_retried SampleMore.no_tokenizer); reflexivity.
Defined.

Lemma check_main_passes_witness :
  fst (CheckMlWorking.main Sample.offline) = inr 0.
Proof.
  apply (check_main_passes Sample.offline).
  - reflexivity.
  - split; reflexivity.
Defined.

Lemma normalize_health_local_witness :
  exists flags w',
    Main.normalize_health {| Main.text := "I have cancer" |} Sample.offline
    = (inr (Main.Returned (Main.FlagList flags)), w')
    /\ State.local_nlp w'.
Proof.
  apply (normalize_health_local Sample.offline). split; reflexivity.
Defined.

(** The first block is parsed; the text around it and a later block are
    ignored. *)
Lemma extract_json_parses_first_block_witness :
  ExtractJson._extract_json (fun s => Some s) ("Here: " ++ "{a}" ++ " and {b}")
  = Some "{a}".
Proof.
  apply (extract_json_parses_first_block (fun s => Some s) "Here: " "{a}" " and {b}").
  - reflexivity.
  - split; [exists "a}"; reflexivity |]. split; [reflexivity |].
    intros p q E Np Nq.
    destruct p as [| c1 [| c2 [| c3 p]]]; simpl in E.
    + now elim Np.
    + injection E as <- _. simpl. lia.
    + injection E as <- <- _. simpl. lia.
    + injection E as <- <- <- E. destruct p; [| discriminate].
      simpl in E. subst q. now elim Nq.
Defined.

Lemma extract_json_without_block_witness :
  ExtractJson._extract_json (fun s => Some s) "no braces" = None
  /\ ExtractJson._extract_json (fun s => Some s) ("no braces" ++ String "{" "a") = None.
Proof.
  destruct (extract_json_without_block (fun s => Some s) "no braces" "a" eq_refl)
    as [A B].
  split; [exact A |]. apply B.
  intros p q E. destruct p as [| c [| d p]]; simpl in E.
  - simpl. lia.
  - injection E as <- _. simpl. lia.
  - injection E as _ E. discriminate.
Defined.

Lemma rule_based_score_other_arguments_witness :
  (TrainModel.rule_based_score 120 10 false 2
   <= TrainModel.rule_based_score 120 10 true 2)%Q
  /\ (TrainModel.rule_based_score 120 10 true 2
      <= TrainModel.rule_based_score 120 3 true 2)%Q
  /\ (TrainModel.rule_based_score 120 10 true 2
      <= TrainModel.rule_based_score 120 10 true 1)%Q.
Proof.
  destruct (rule_based_score_other_arguments 120 10 true 2) as (A & B & C).
  split; [exact A |]. split.
  - apply (B 3%Q). unfold Qle. simpl. lia.
  - apply (C 1). lia.
Defined.

End MoreInstances.
